(** * A shallow embedding of the orofacial_pipeline ingestion and ephys code

    Sources: [pipeline/__init__.py] (dict_to_hash, InsertBuffer),
    [pipeline/ingest/ephys_ingest.py] (EphysIngestion.make,
    _gen_electrode_config), [pipeline/ephys.py] (UnitStat.make) and
    [pipeline/psth.py] (UnitPsth.make, UnitPsth.compute_psth,
    UnitPsth.get_plotting_data, the keyword split of
    TrialCondition._get_trials_exclude_stim / _get_trials_include_stim),
    [pipeline/ingest/loaders/jrclust.py] (_decode_notes) and
    [pipeline/ingest/loaders/vincent.py] (the headstage name of load_ephys).

    Conventions:
    - Python ints are [Z]; Python and numpy floats are modelled by exact
      rationals [Q] (every value the claims mention is exact there);
    - a Python dict is an association list in insertion order with distinct
      keys, which is what [dict.items()] enumerates;
    - DataJoint tables are lists of rows in a store record; a call that can
      raise returns [Raise e s], carrying the store as it is at the raise. *)

From Stdlib Require Import List ZArith QArith Lqa String Bool Permutation Lia.
From Stdlib Require Import DecimalString Qround Sorted Ascii.
Import ListNotations.
Open Scope string_scope.

(** ** Python [str] of an int *)

Definition py_str_int (z : Z) : string :=
  NilZero.string_of_int (Z.to_int z).

(** ** dict_to_hash (pipeline/__init__.py)

<<
def dict_to_hash(key):
    hashed = hashlib.md5()
    for k, v in sorted(key.items()):
        hashed.update(str(k).encode())
        hashed.update(str(v).encode())
    return hashed.hexdigest()
>>
    md5's incremental [update] is hashing the concatenation of the fed
    strings; the digest function and [str] of a value are kept as
    parameters, the statements hold for any of them. Keys are the electrode
    indices (ints). *)

Module Hashing.
Section DictToHash.

Variable V : Type.
(** [str(v)] *)
Variable py_str_v : V -> string.
(** [hashlib.md5(data).hexdigest()] *)
Variable md5_hexdigest : string -> string.

(** Insert into a list sorted by key; [sorted] on pairs with distinct keys
    compares the keys only. *)
Fixpoint insert_item (kv : Z * V) (l : list (Z * V)) : list (Z * V) :=
  match l with
  | [] => [kv]
  | kv' :: r =>
      if (fst kv <=? fst kv')%Z then kv :: kv' :: r
      else kv' :: insert_item kv r
  end.

Fixpoint sorted_items (l : list (Z * V)) : list (Z * V) :=
  match l with
  | [] => []
  | kv :: r => insert_item kv (sorted_items r)
  end.

Definition dict_to_hash (items : list (Z * V)) : string :=
  md5_hexdigest
    (fold_left (fun acc '(k, v) => acc ++ py_str_int k ++ py_str_v v)
       (sorted_items items) "").

End DictToHash.
End Hashing.

(** ** Python list helpers *)

(** [sorted(l)] on a list of ints. *)
Fixpoint insert_Z (x : Z) (l : list Z) : list Z :=
  match l with
  | [] => [x]
  | y :: r => if (x <=? y)%Z then x :: y :: r else y :: insert_Z x r
  end.

Fixpoint py_sorted (l : list Z) : list Z :=
  match l with
  | [] => []
  | x :: r => insert_Z x (py_sorted r)
  end.

(** [l[i]] with Python's negative indices; [None] is an [IndexError]. *)
Definition py_index {A} (l : list A) (i : Z) : option A :=
  if (i <? 0)%Z then
    if (Z.of_nat (List.length l) + i <? 0)%Z then None
    else nth_error l (Z.to_nat (Z.of_nat (List.length l) + i))
  else nth_error l (Z.to_nat i).

(** [np.diff(l)] *)
Fixpoint np_diff_Z (l : list Z) : list Z :=
  match l with
  | x :: ((y :: _) as t) => (y - x)%Z :: np_diff_Z t
  | _ => []
  end.

(** [np.where(mask)[0].tolist()]: the positions where [mask] holds. *)
Fixpoint where_from {A} (p : A -> bool) (i : nat) (l : list A) : list nat :=
  match l with
  | [] => []
  | x :: r => if p x then i :: where_from p (S i) r else where_from p (S i) r
  end.

Definition np_where {A} (p : A -> bool) (l : list A) : list nat := where_from p 0 l.

(** All-or-nothing map of a function that may raise. *)
Fixpoint map_opt {A B} (f : A -> option B) (l : list A) : option (list B) :=
  match l with
  | [] => Some []
  | x :: r =>
      match f x, map_opt f r with
      | Some y, Some ys => Some (y :: ys)
      | _, _ => None
      end
  end.

(** ** The electrode-configuration name (_gen_electrode_config, lines 161-163)

<<
el_list = sorted([k['electrode'] for k in eg_members])
el_jumps = [-1] + np.where(np.diff(el_list) > 1)[0].tolist() + [len(el_list) - 1]
ec_name = '; '.join([f'{el_list[s + 1]}-{el_list[e]}'
                     for s, e in zip(el_jumps[:-1], el_jumps[1:])])
>>
    [None] is the [IndexError] raised on an empty list. *)

Definition el_jumps (el_list : list Z) : list Z :=
  [(-1)%Z] ++ map Z.of_nat (np_where (fun d => (1 <? d)%Z) (np_diff_Z el_list))
  ++ [(Z.of_nat (List.length el_list) - 1)%Z].

Definition run_name (el_list : list Z) (se : Z * Z) : option string :=
  let '(s, e) := se in
  match py_index el_list (s + 1), py_index el_list e with
  | Some a, Some b => Some (py_str_int a ++ "-" ++ py_str_int b)
  | _, _ => None
  end.

Definition ec_name_of (electrodes : list Z) : option string :=
  let el_list := py_sorted electrodes in
  let jumps := el_jumps el_list in
  match map_opt (run_name el_list) (combine (removelast jumps) (tl jumps)) with
  | Some names => Some (String.concat "; " names)
  | None => None
  end.

(** Reference reading of the naming scheme, following the claim's words:
    the maximal runs of a sorted list, a run continuing while the next index
    is at most one above the last one, each run as its (start, end). *)
Fixpoint runs_from (cur : Z * Z) (l : list Z) : list (Z * Z) :=
  match l with
  | [] => [cur]
  | x :: r =>
      if (1 <? x - snd cur)%Z then cur :: runs_from (x, x) r
      else runs_from (fst cur, x) r
  end.

Definition maximal_runs (l : list Z) : list (Z * Z) :=
  match l with
  | [] => []
  | x :: r => runs_from (x, x) r
  end.

Definition render_run (ab : Z * Z) : string :=
  py_str_int (fst ab) ++ "-" ++ py_str_int (snd ab).

Definition render_runs (rs : list (Z * Z)) : string :=
  String.concat "; " (map render_run rs).

(** The two looked-up ends of one [(s, e)] jump pair. *)
Definition run_bounds (el_list : list Z) (se : Z * Z) : option (Z * Z) :=
  match py_index el_list (fst se + 1), py_index el_list (snd se) with
  | Some a, Some b => Some (a, b)
  | _, _ => None
  end.

(** [zip(l[:-1], l[1:])] as consecutive pairs. *)
Fixpoint consec (l : list Z) : list (Z * Z) :=
  match l with
  | a :: ((b :: _) as t) => (a, b) :: consec t
  | _ => []
  end.

Definition set_first_start (a : Z) (rs : list (Z * Z)) : list (Z * Z) :=
  match rs with
  | [] => []
  | (_, e) :: t => (a, e) :: t
  end.

(** ** The DataJoint store

    The lab lookup tables are read-only during ingestion; the tables written
    by [EphysIngestion.make] and [_gen_electrode_config] are one list of
    rows tagged by table, in insertion order. DataJoint's primary keys (and
    the [unique index (electrode_config_hash)] of [lab.ElectrodeConfig]) are
    enforced by [insert1], which raises on a clash. A row keeps the
    attributes the code passes that identify it; the names of all the
    fields of the dict the code passes are kept beside it, for DataJoint's
    heading check ([insert1_dict] below), as is DataJoint's refusal of a
    direct insert into an auto-populated table ([insert1_imported]). *)

Record session_key := { subject_id : string; session : Z }.

(** [lab.Probe] row, i.e. what [(lab.Probe & ...).fetch1()] returns. *)
Record probe_row := { probe : string; probe_type : string; probe_comment : string }.

Record lab_db := {
  lab_probes : list probe_row;
  (** [lab.ProbeType.Electrode] primary keys: (probe_type, electrode) *)
  lab_type_electrodes : list (string * Z)
}.

Inductive row :=
| ElectrodeConfigRow (pt name hash : string)
| ElectrodeGroupRow (pt name : string) (group : Z)
| ConfigElectrodeRow (pt name : string) (electrode : Z)
| ProbeInsertionRow (sk : session_key) (ins : Z) (pr pt name : string)
| RecordingSystemSetupRow (sk : session_key) (ins : Z) (rate : Q) (adapter headstage : string)
| ClusteringRow (sk : session_key) (ins : Z) (method : string)
| UnitRow (sk : session_key) (ins : Z) (method : string) (u : Z) (spike_times : list Q)
| WaveformRow (sk : session_key) (ins : Z) (method : string) (u : Z) (waveform : list Q)
| EphysIngestionRow (sk : session_key)
| EphysFileRow (sk : session_key) (filepath : string).

Definition sk_eqb (a b : session_key) : bool :=
  String.eqb (subject_id a) (subject_id b) && Z.eqb (session a) (session b).

(** Two rows clash when they are in one table and agree on its primary key
    (or, for ElectrodeConfig, on the unique hash). *)
Definition clash (r1 r2 : row) : bool :=
  match r1, r2 with
  | ElectrodeConfigRow pt n h, ElectrodeConfigRow pt' n' h' =>
      (String.eqb pt pt' && String.eqb n n') || String.eqb h h'
  | ElectrodeGroupRow pt n g, ElectrodeGroupRow pt' n' g' =>
      String.eqb pt pt' && String.eqb n n' && Z.eqb g g'
  | ConfigElectrodeRow pt n e, ConfigElectrodeRow pt' n' e' =>
      String.eqb pt pt' && String.eqb n n' && Z.eqb e e'
  | ProbeInsertionRow sk i _ _ _, ProbeInsertionRow sk' i' _ _ _
  | RecordingSystemSetupRow sk i _ _ _, RecordingSystemSetupRow sk' i' _ _ _
  | ClusteringRow sk i _, ClusteringRow sk' i' _ => sk_eqb sk sk' && Z.eqb i i'
  | UnitRow sk i _ u _, UnitRow sk' i' _ u' _
  | WaveformRow sk i _ u _, WaveformRow sk' i' _ u' _ =>
      sk_eqb sk sk' && Z.eqb i i' && Z.eqb u u'
  | EphysIngestionRow sk, EphysIngestionRow sk' => sk_eqb sk sk'
  | EphysFileRow sk f, EphysFileRow sk' f' => sk_eqb sk sk' && String.eqb f f'
  | _, _ => false
  end.

Record db := { lab : lab_db; rows : list row }.

(** ** State and exception monad *)

Inductive exc :=
| DataJointError   (* fetch1 on no row, or an insert clash *)
| IndexError
| KeyError
| NameError
| NotImplementedError (method : string).

Inductive outcome (A : Type) :=
| Ret (a : A) (s : db)
| Raise (e : exc) (s : db).
Arguments Ret {A}.
Arguments Raise {A}.

Definition M (A : Type) := db -> outcome A.

Definition ret {A} (a : A) : M A := fun s => Ret a s.
Definition raise {A} (e : exc) : M A := fun s => Raise e s.
Definition bind {A B} (m : M A) (k : A -> M B) : M B :=
  fun s => match m s with Ret a s' => k a s' | Raise e s' => Raise e s' end.

Notation "x <- m ;; k" := (bind m (fun x => k))
  (at level 61, m at next level, right associativity).
Notation "m ;;; k" := (bind m (fun _ => k))
  (at level 61, right associativity).

Definition get_lab : M lab_db := fun s => Ret (lab s) s.

Definition lift_opt {A} (e : exc) (o : option A) : M A :=
  match o with Some a => ret a | None => raise e end.

(** [Table.insert1(r)] *)
Definition insert1 (r : row) : M unit := fun s =>
  if existsb (clash r) (rows s) then Raise DataJointError s
  else Ret tt {| lab := lab s; rows := rows s ++ [r] |}.

(** Rows [rs] can be added one after the other to [rs0] without a clash. *)
Fixpoint fits (rs0 rs : list row) : bool :=
  match rs with
  | [] => true
  | r :: t => negb (existsb (clash r) rs0) && fits (rs0 ++ [r]) t
  end.

(** [Table.insert(rs)]: one statement, all rows or none. *)
Definition insert (rs : list row) : M unit := fun s =>
  if fits (rows s) rs then Ret tt {| lab := lab s; rows := rows s ++ rs |}
  else Raise DataJointError s.

(** ** DataJoint's heading check

    [Table.insert1(d)] and [Table.insert(ds)] without
    [ignore_extra_fields=True] raise [KeyError] ("`f` is not in the table
    heading") for a field [f] of a dict outside the table's heading, while
    the rows are built, before anything is written. A missing attribute
    would fail later, at the database; every call below that misses one
    has an extra field and raises first. *)

Definition in_heading (heading : list string) (f : string) : bool :=
  existsb (String.eqb f) heading.

(** [Table.insert1(d)], [fields] being the keys of [d]. *)
Definition insert1_dict (heading fields : list string) (r : row) : M unit :=
  if forallb (in_heading heading) fields then insert1 r else raise KeyError.

(** [Table.insert(ds)] where every dict of [ds] has the keys [fields]. *)
Definition insert_dicts (heading fields : list string) (rs : list row) : M unit :=
  match rs with
  | [] => insert []
  | _ :: _ => if forallb (in_heading heading) fields then insert rs else raise KeyError
  end.

(** [Table.insert1(d)] on a dj.Imported or dj.Computed table from outside
    its own [populate] and without [allow_direct_insert=True]: DataJoint
    refuses it with a DataJointError before anything is written. *)
Definition insert1_imported (r : row) : M unit := raise DataJointError.

(** The attributes of the tables written by the ingestion, as their
    definitions declare them (foreign keys expanded). *)
Definition session_fields : list string := ["subject_id"; "session"].
Definition probe_fields : list string := ["probe"; "probe_type"; "probe_comment"].
Definition heading_ElectrodeConfig : list string :=
  ["probe_type"; "electrode_config_name"; "electrode_config_hash"].
Definition heading_ElectrodeGroup : list string :=
  ["probe_type"; "electrode_config_name"; "electrode_group"].
Definition heading_ConfigElectrode : list string :=
  ["probe_type"; "electrode_config_name"; "electrode_group"; "electrode"; "is_used"].
Definition heading_ProbeInsertion : list string :=
  session_fields ++ ["insertion_number"; "probe"; "probe_type"; "electrode_config_name"].
Definition heading_RecordingSystemSetup : list string :=
  session_fields ++ ["insertion_number"; "sampling_rate"].

(** The keys of [e_config = {**probe_key, 'electrode_config_name': ec_name}],
    [probe_key] being a whole [lab.Probe] row. *)
Definition e_config_fields : list string := probe_fields ++ ["electrode_config_name"].

Fixpoint mapM {A B} (f : A -> M B) (l : list A) : M (list B) :=
  match l with
  | [] => ret []
  | x :: r => y <- f x ;; ys <- mapM f r ;; ret (y :: ys)
  end.

(** ** Unit assembly (EphysIngestion.make, lines 101-111)

<<
if method in ('jrclust_v3', 'jrclust_v4'):
    units, spikes, spike_sites, spike_depths = (v[i] for v, i in zip(
        (units, spikes, spike_sites, spike_depths), repeat((units > 0))))
spikes = spikes / ephys_data['sampling_rate']
unit_spikes = np.array([spikes[np.where(units == u)] for u in set(units)])
>>
    Boolean-mask indexing raises [IndexError] when the mask and the array
    differ in length. [set(units)] is enumerated here in ascending order;
    CPython enumerates it in hash-table slot order, which can differ (for
    [{1, 8}] it gives 8 before 1), so only statements that do not depend on
    this order are made about it. *)

Definition noise_mask (units : list Z) : list bool := map (fun u => (0 <? u)%Z) units.

Definition mask_select {A} (v : list A) (mask : list bool) : option (list A) :=
  if Nat.eqb (List.length v) (List.length mask)
  then Some (map fst (filter snd (combine v mask)))
  else None.

Fixpoint dedup_sorted (l : list Z) : list Z :=
  match l with
  | x :: ((y :: _) as t) => if Z.eqb x y then dedup_sorted t else x :: dedup_sorted t
  | _ => l
  end.

Definition py_set_order (units : list Z) : list Z := dedup_sorted (py_sorted units).

(** [arr[np.where(units == u)]] *)
Definition select_unit {A} (units : list Z) (arr : list A) (u : Z) : list A :=
  map snd (filter (fun p => Z.eqb (fst p) u) (combine units arr)).

Definition assemble_units (units : list Z) (spikes : list Q) (rate : Q)
  : option (list (Z * list Q)) :=
  let mask := noise_mask units in
  match mask_select units mask, mask_select spikes mask with
  | Some us, Some ss =>
      let secs := map (fun t => t / rate) ss in
      Some (map (fun u => (u, select_unit us secs u)) (py_set_order us))
  | _, _ => None
  end.

(** ** Per-probe ingestion (EphysIngestion.make and _gen_electrode_config) *)

Inductive probe_selector :=
| ByProbe (p : string)          (* 'probe' in ephys_data *)
| ByProbeComment (c : string)   (* 'probe_comment' in ephys_data *)
| NoProbeField.

(** One dict of [loader.load_ephys(...)]. The clustering_time, quality_control,
    manual_curation and clustering_note fields only fill the Clustering row
    and are left out. *)
Record ephys_data := {
  ephys_file : string;
  probe_sel : probe_selector;
  electrodes : list Z;
  sampling_rate : Q;
  adapter : string;
  headstage : string;
  clustering_method : string;
  unit_ids : list Z;   (* ephys_data['unit'] *)
  spike_times : list Q;
  spike_sites : list Z;
  spike_depths : list Q;
  unit_electrode : list Z;
  unit_quality : list string;
  unit_posx : list Q;
  unit_posy : list Q;
  unit_amp : list Q;
  unit_snr : list Q;
  waveform : list (list (list Q))
}.

(** [str(k)] of a [lab.ProbeType.Electrode] key dict. *)
Definition py_str_member (m : string * Z) : string :=
  "{'probe_type': '" ++ fst m ++ "', 'electrode': " ++ py_str_int (snd m) ++ "}".

(** [d[k] = v] on a dict kept in insertion order. *)
Fixpoint dict_set {V} (k : Z) (v : V) (d : list (Z * V)) : list (Z * V) :=
  match d with
  | [] => [(k, v)]
  | (k', v') :: r => if Z.eqb k k' then (k', v) :: r else (k', v') :: dict_set k v r
  end.

(** [d[k]]; [None] is a [KeyError]. *)
Fixpoint find_key {V} (k : Z) (d : list (Z * V)) : option V :=
  match d with
  | [] => None
  | (k', v) :: r => if Z.eqb k k' then Some v else find_key k r
  end.

(** [{k['electrode']: k for k in eg_members}] *)
Definition members_dict (eg_members : list (string * Z)) : list (Z * (string * Z)) :=
  fold_left (fun d m => dict_set (snd m) m d) eg_members [].

(** [(q & restriction).fetch1()]: exactly one matching row. *)
Definition fetch1 {A} (l : list A) : M A :=
  match l with [a] => ret a | _ => raise DataJointError end.

Definition fetch_electrode (pt : string) (eid : Z) : M (string * Z) :=
  labdb <- get_lab ;;
  fetch1 (filter (fun k => String.eqb (fst k) pt && Z.eqb (snd k) eid)
            (lab_type_electrodes labdb)).

(** [lab.ElectrodeConfig & {'electrode_config_hash': h}] is non-empty. *)
Definition hash_in_rows (h : string) (rs : list row) : bool :=
  existsb (fun r => match r with
                    | ElectrodeConfigRow _ _ h' => String.eqb h h'
                    | _ => false end) rs.


Definition config_hash_exists (h : string) : M bool := fun s =>
  Ret (hash_in_rows h (rows s)) s.

Section Ingestion.

(** [hashlib.md5(data).hexdigest()] *)
Variable md5_hexdigest : string -> string.

(** The ElectrodeConfig key [{**probe_key, 'electrode_config_name': ec_name}]. *)
Record config_key := { ck_probe : probe_row; ck_name : string }.

Definition gen_electrode_config (probe_key : probe_row) (electrode_list : list Z)
  : M config_key :=
  eg_members <- mapM (fetch_electrode (probe_type probe_key)) electrode_list ;;
  let ec_hash := Hashing.dict_to_hash _ py_str_member md5_hexdigest
                   (members_dict eg_members) in
  ec_name <- lift_opt IndexError (ec_name_of (map snd eg_members)) ;;
  let pt := probe_type probe_key in
  present <- config_hash_exists ec_hash ;;
  (if present then ret tt
   else insert1_dict heading_ElectrodeConfig (e_config_fields ++ ["electrode_config_hash"])
          (ElectrodeConfigRow pt ec_name ec_hash) ;;;
        insert1_dict heading_ElectrodeGroup (e_config_fields ++ ["electrode_group"])
          (ElectrodeGroupRow pt ec_name 0) ;;;
        (* {**e_config, **m}, m a lab.ProbeType.Electrode key *)
        insert_dicts heading_ConfigElectrode (e_config_fields ++ ["probe_type"; "electrode"])
          (map (fun m => ConfigElectrodeRow pt ec_name (snd m)) eg_members)) ;;;
  ret {| ck_probe := probe_key; ck_name := ec_name |}.

(** [probe_key] of one loop iteration; without a probe field the variable
    keeps the previous iteration's value, and is unbound on the first. *)
Definition resolve_probe (prev : option probe_row) (d : ephys_data) : M probe_row :=
  match probe_sel d with
  | ByProbe p =>
      labdb <- get_lab ;; fetch1 (filter (fun r => String.eqb (probe r) p) (lab_probes labdb))
  | ByProbeComment c =>
      labdb <- get_lab ;;
      fetch1 (filter (fun r => String.eqb (probe_comment r) c) (lab_probes labdb))
  | NoProbeField => lift_opt NameError prev
  end.

Definition is_jrclust (method : string) : bool :=
  String.eqb method "jrclust_v3" || String.eqb method "jrclust_v4".

(** The unit and waveform dicts of lines 117-136, in evaluation order of
    their lookups; [wf_chn_idx = 0]. *)
Definition unit_record (sk : session_key) (ins : Z) (d : ephys_data)
  (chn2electrodes : list (Z * (string * Z))) (i : nat) (u : Z) (spk : list Q)
  : M (row * row) :=
  ue <- lift_opt IndexError (nth_error (unit_electrode d) i) ;;
  _ <- lift_opt KeyError (find_key ue chn2electrodes) ;;
  _ <- lift_opt IndexError (nth_error (unit_quality d) i) ;;
  _ <- lift_opt IndexError (nth_error (unit_posx d) i) ;;
  _ <- lift_opt IndexError (nth_error (unit_posy d) i) ;;
  _ <- lift_opt IndexError (nth_error (unit_amp d) i) ;;
  _ <- lift_opt IndexError (nth_error (unit_snr d) i) ;;
  wfi <- lift_opt IndexError (nth_error (waveform d) i) ;;
  wf <- lift_opt IndexError (nth_error wfi 0) ;;
  ret (UnitRow sk ins (clustering_method d) u spk,
       WaveformRow sk ins (clustering_method d) u wf).

Fixpoint mapiM {A B} (f : nat -> A -> M B) (i : nat) (l : list A) : M (list B) :=
  match l with
  | [] => ret []
  | x :: r => y <- f i x ;; ys <- mapiM f (S i) r ;; ret (y :: ys)
  end.

(** Body of the per-probe loop, lines 64-136; returns the probe key, which
    outlives the iteration. *)
Definition ingest_probe (sk : session_key) (ins : Z) (prev : option probe_row)
  (d : ephys_data) : M probe_row :=
  probe_key <- resolve_probe prev d ;;
  (* ---- ProbeInsertion ---- *)
  e_config_key <- gen_electrode_config probe_key (electrodes d) ;;
  (* {**insertion_key, **probe_key, **e_config_key} *)
  insert1_dict heading_ProbeInsertion
    (session_fields ++ ["insertion_number"] ++ probe_fields ++ e_config_fields)
    (ProbeInsertionRow sk ins (probe probe_key) (probe_type probe_key)
       (ck_name e_config_key)) ;;;
  insert1_dict heading_RecordingSystemSetup
    (session_fields ++ ["insertion_number"; "sampling_rate"; "adapter"; "headstage"])
    (RecordingSystemSetupRow sk ins (sampling_rate d) (adapter d) (headstage d)) ;;;
  (* ---- Clustering ---- *)
  let method := clustering_method d in
  if negb (is_jrclust method) then raise (NotImplementedError method) else
  (* ephys.Clustering is a dj.Imported table *)
  insert1_imported (ClusteringRow sk ins method) ;;;
  (* ---- Units ---- *)
  let mask := noise_mask (unit_ids d) in
  _ <- lift_opt IndexError (mask_select (spike_sites d) mask) ;;
  _ <- lift_opt IndexError (mask_select (spike_depths d) mask) ;;
  unit_spikes <- lift_opt IndexError (assemble_units (unit_ids d) (spike_times d) (sampling_rate d)) ;;
  (* electrode *)
  chn2 <- mapM (fun eid => k <- fetch_electrode (probe_type probe_key) eid ;; ret (eid, k))
            (electrodes d) ;;
  let chn2electrodes := fold_left (fun acc p => dict_set (fst p) (snd p) acc) chn2 [] in
  records <- mapiM (fun i us => unit_record sk ins d chn2electrodes i (fst us) (snd us))
               0 unit_spikes ;;
  (* unit_list and waveform_list are built and not used further *)
  ret probe_key.

Fixpoint ingest_probes (sk : session_key) (ins : Z) (prev : option probe_row)
  (all_ephys_data : list ephys_data) : M unit :=
  match all_ephys_data with
  | [] => ret tt
  | d :: r => pk <- ingest_probe sk ins prev d ;; ingest_probes sk (ins + 1) (Some pk) r
  end.

(** [EphysIngestion.make(key)], given the loader's output. [key] has
    exactly EphysIngestion's heading, and make runs inside
    [EphysIngestion.populate], so [self.insert1(key)] passes both checks;
    the EphysFile insert has [ignore_extra_fields=True] and
    [allow_direct_insert=True]. *)
Definition make (key : session_key) (all_ephys_data : list ephys_data) : M unit :=
  ingest_probes key 0 None all_ephys_data ;;;
  (* insert into self *)
  insert1 (EphysIngestionRow key) ;;;
  insert (map (fun d => EphysFileRow key (ephys_file d)) all_ephys_data).

End Ingestion.

(** ** UnitStat.make (pipeline/ephys.py)

<<
isis = np.hstack(np.diff(spks) for spks in trial_spikes)
if isis.size > 0:
    processed_trial_spikes = []
    for spike_train in trial_spikes:
        duplicate_spikes = np.where(np.diff(spike_train) <= self.min_isi)[0]
        processed_trial_spikes.append(np.delete(spike_train, duplicate_spikes + 1))
    num_spikes = len(np.hstack(processed_trial_spikes))
    avg_firing_rate = num_spikes / float(sum(tr_stop - tr_start))
    num_violations = sum(isis < self.isi_threshold)
    violation_time = 2 * num_spikes * (self.isi_threshold - self.min_isi)
    violation_rate = num_violations / violation_time
    fpRate = violation_rate / avg_firing_rate
    yield {**unit, 'isi_violation': fpRate, 'avg_firing_rate': avg_firing_rate}
else:
    yield {**unit, 'isi_violation': None, 'avg_firing_rate': None}
>>
    The Python division [num_spikes / float(0.0)] raises ZeroDivisionError,
    a [None] of [unit_stat]; the numpy divisions after it cannot divide by
    zero once a spike exists. *)

Module UnitStat.

Definition isi_threshold : Q := 2 # 1000.
Definition min_isi : Q := 0.

Record trial := { trial_spikes : list Q; start_time : Q; stop_time : Q }.

(** [np.diff] on floats *)
Fixpoint np_diff (l : list Q) : list Q :=
  match l with
  | x :: ((y :: _) as t) => (y - x) :: np_diff t
  | _ => []
  end.

(** [np.delete(arr, idx)]: drop the listed positions. *)
Definition np_delete {A} (arr : list A) (idx : list nat) : list A :=
  map fst (filter (fun p => negb (existsb (Nat.eqb (snd p)) idx))
             (combine arr (seq 0 (List.length arr)))).

Definition remove_duplicates (min_isi : Q) (spike_train : list Q) : list Q :=
  let duplicate_spikes := np_where (fun d => Qle_bool d min_isi) (np_diff spike_train) in
  np_delete spike_train (map S duplicate_spikes).

Definition Qsum (l : list Q) : Q := fold_left Qplus l 0.

Definition count_lt (thr : Q) (l : list Q) : nat :=
  List.length (filter (fun x => negb (Qle_bool thr x)) l).

(** The stored (isi_violation, avg_firing_rate); [None] inside is SQL null.
    A unit without any TrialSpikes row makes [np.hstack] of no array raise
    ValueError: the outer [None], as is ZeroDivisionError. *)
Definition unit_stat (trials : list trial) : option (option Q * option Q) :=
  match trials with [] => None | _ :: _ =>
  let isis := List.concat (map (fun t => np_diff (trial_spikes t)) trials) in
  if Nat.ltb 0 (List.length isis) then
    let processed := map (fun t => remove_duplicates min_isi (trial_spikes t)) trials in
    let num_spikes := inject_Z (Z.of_nat (List.length (List.concat processed))) in
    let duration := Qsum (map (fun t => stop_time t - start_time t) trials) in
    if Qeq_bool duration 0 then None
    else
      let avg_firing_rate := num_spikes / duration in
      let num_violations := inject_Z (Z.of_nat (count_lt isi_threshold isis)) in
      let violation_time := 2 * num_spikes * (isi_threshold - min_isi) in
      let violation_rate := num_violations / violation_time in
      let fpRate := violation_rate / avg_firing_rate in
      Some (Some fpRate, Some avg_firing_rate)
  else Some (None, None)
  end.

(** The removal step spike by spike: a spike is kept when it lies more than
    [m] after the spike just before it in the input train. *)
Fixpoint keep_after (m p : Q) (l : list Q) : list Q :=
  match l with
  | [] => []
  | y :: r => if Qle_bool (y - p) m then keep_after m y r else y :: keep_after m y r
  end.

Fixpoint nondecreasing (l : list Q) : bool :=
  match l with
  | x :: ((y :: _) as t) => Qle_bool x y && nondecreasing t
  | _ => true
  end.

End UnitStat.

(** ** UnitPsth.make and UnitPsth.compute_psth (pipeline/psth.py)

<<
spikes = q.fetch('spike_times')
if len(spikes) == 0:
    self.insert1(key)          # unit_psth = NULL
    return
unit_psth = self.compute_psth(spikes)

def compute_psth(session_unit_spikes):
    spikes = np.concatenate(session_unit_spikes)
    xmin, xmax, bins = UnitPsth.psth_params.values()
    psth, edges = np.histogram(spikes, bins=np.arange(xmin, xmax, bins))
    psth = psth / len(session_unit_spikes) / bins
    return np.array([psth, edges[1:]])
>>  *)

Module Psth.

(** [psth_params = {'xmin': -3, 'xmax': 3, 'binsize': 0.04}] *)
Definition xmin : Q := -3.
Definition xmax : Q := 3.
Definition binsize : Q := 1 # 25.

(** [np.arange(start, stop, step)]: [ceil((stop - start) / step)] values. *)
Definition np_arange (start stop step : Q) : list Q :=
  map (fun i => start + inject_Z (Z.of_nat i) * step)
      (seq 0 (Z.to_nat (Qceiling ((stop - start) / step)))).

(** [np.histogram(xs, bins=edges)[0]]: bin [i] is [edges[i] <= x < edges[i+1]],
    the last bin also holds its right edge. *)
Fixpoint histogram (xs : list Q) (edges : list Q) : list nat :=
  match edges with
  | a :: ((b :: r) as t) =>
      let last := match r with [] => true | _ => false end in
      List.length (filter (fun x => Qle_bool a x &&
                                   (if last then Qle_bool x b else negb (Qle_bool b x))) xs)
      :: histogram xs t
  | _ => []
  end.

Definition compute_psth (session_unit_spikes : list (list Q)) : list Q * list Q :=
  let spikes := List.concat session_unit_spikes in
  let edges := np_arange xmin xmax binsize in
  let psth := map (fun c => inject_Z (Z.of_nat c) / inject_Z (Z.of_nat (List.length session_unit_spikes)) / binsize)
                  (histogram spikes edges) in
  (psth, tl edges).

(** The stored [unit_psth]; [None] is the NULL of an insert without it. *)
Definition unit_psth_make (spikes : list (list Q)) : option (list Q * list Q) :=
  if Nat.eqb (List.length spikes) 0 then None
  else Some (compute_psth spikes).

End Psth.

(** ** InsertBuffer (pipeline/__init__.py)

<<
def insert1(self, r):
    self._queue.append(r)
def insert(self, recs):
    self._queue += recs
def flush(self, chunksz=None):
    qlen = len(self._queue)
    if chunksz is None:
        chunksz = self._chunksz
    if qlen > 0 and qlen % chunksz == 0:
        try:
            self._rel.insert(self._queue, **self._insert_args)
            self._queue.clear()
            return qlen
        except dj.DataJointError as e:
            raise
def __exit__(self, etype, evalue, etraceback):
    if etype:
        raise evalue
    else:
        return self.flush(1)
>>
    The relation's [insert] (with the buffer's [insert_args]) is a
    parameter. Python's [%] is floor modulo, as [Z.modulo], except that
    [qlen % 0] raises ZeroDivisionError. A flush that does not insert
    returns [None]. *)

Module InsertBuffer.

Inductive py_exc :=
| Db (e : exc)            (* an exception of the store *)
| ZeroDivisionError.

Record buffer := { queue : list row; chunksz : Z }.

Inductive result (A : Type) :=
| BRet (a : A) (b : buffer) (s : db)
| BRaise (e : py_exc) (b : buffer) (s : db).
Arguments BRet {A}.
Arguments BRaise {A}.

Section Buffer.

(** [self._rel.insert(rows, **self._insert_args)] *)
Variable rel_insert : list row -> M unit.

(** [InsertBuffer(rel, chunksz)] *)
Definition init (chunksz : Z) : buffer := {| queue := []; chunksz := chunksz |}.

Definition insert1 (r : row) (b : buffer) : buffer :=
  {| queue := (queue b ++ [r])%list; chunksz := chunksz b |}.

Definition insert (recs : list row) (b : buffer) : buffer :=
  {| queue := (queue b ++ recs)%list; chunksz := chunksz b |}.

Definition flush (chunksz_arg : option Z) (b : buffer) (s : db) : result (option Z) :=
  let qlen := Z.of_nat (List.length (queue b)) in
  let c := match chunksz_arg with None => chunksz b | Some c => c end in
  if (0 <? qlen)%Z then
    if (c =? 0)%Z then BRaise ZeroDivisionError b s
    else if (qlen mod c =? 0)%Z then
      match rel_insert (queue b) s with
      | Ret _ s' => BRet (Some qlen) {| queue := []; chunksz := chunksz b |} s'
      | Raise e s' => BRaise (Db e) b s'
      end
    else BRet None b s
  else BRet None b s.

(** [__exit__]: [pending] is the exception leaving the [with] block, if any. *)
Definition exit (pending : option py_exc) (b : buffer) (s : db) : result (option Z) :=
  match pending with
  | Some e => BRaise e b s
  | None => flush (Some 1%Z) b s
  end.

End Buffer.
End InsertBuffer.

(** ** Curation notes (pipeline/ingest/loaders/jrclust.py, _decode_notes)

<<
note_map = {'single': 'good', 'ok': 'ok', 'multi': 'multi',
            '\x00\x00': 'all'}  # 'all' is default / null label
decoded_notes = []
for n in notes:
    note_val = str().join(chr(c) for c in fh[n])
    match = [k for k in note_map if re.match(k, note_val)]
    decoded_notes.append(note_map[match[0]] if len(match) > 0 else 'all')
>>
    [note_val] is taken as given (its characters are bytes); the patterns
    hold no regex metacharacter, so [re.match] is a prefix test. *)

Definition nul2 : string := String Ascii.zero (String Ascii.zero EmptyString).

Definition note_map : list (string * string) :=
  [("single", "good"); ("ok", "ok"); ("multi", "multi"); (nul2, "all")].

Definition decode_note (note_val : string) : string :=
  match filter (fun kv => String.prefix (fst kv) note_val) note_map with
  | kv :: _ => snd kv
  | [] => "all"
  end.

Definition decode_notes (notes : list string) : list string := map decode_note notes.

(** The unit_quality keys of [ephys.UnitQualityType.contents]. *)
Definition unit_quality_types : list string := ["good"; "ok"; "multi"; "all"].

(** ** Headstage name (pipeline/ingest/loaders/vincent.py, load_ephys)

<<
headstage = rec_info['recording_system'] + '_' + adapter[adapter.find('OM') + 2:]
>>  *)

(** [s.find(sub)]: the first position of [sub] in [s], or -1. *)
Definition py_find (sub s : string) : Z :=
  match String.index 0 sub s with Some i => Z.of_nat i | None => (-1)%Z end.

(** [s[i:]], a negative [i] counting from the end. *)
Definition py_slice_from (s : string) (i : Z) : string :=
  let n := String.length s in
  let j := if (i <? 0)%Z then Z.to_nat (Z.max 0 (Z.of_nat n + i)) else Z.to_nat i in
  substring j (n - j) s.

Definition headstage_name (recording_system adapter : string) : string :=
  recording_system ++ "_" ++ py_slice_from adapter (py_find "OM" adapter + 2).

(** ** Keyword split of TrialCondition._get_trials_exclude_stim and
    _get_trials_include_stim (pipeline/psth.py)

<<
restr, _restr = {}, {}
for k, v in kwargs.items():
    if k.startswith('_'):
        _restr[k[1:]] = v
    else:
        restr[k] = v
>>  *)

(** [d[k] = v] on a dict with string keys, kept in insertion order. *)
Fixpoint sdict_set {V} (k : string) (v : V) (d : list (string * V)) : list (string * V) :=
  match d with
  | [] => [(k, v)]
  | (k', v') :: r => if String.eqb k k' then (k', v) :: r else (k', v') :: sdict_set k v r
  end.

(** [k[1:]] *)
Definition drop_first (k : string) : string := substring 1 (String.length k - 1) k.

Definition split_kwargs {V} (kwargs : list (string * V)) : list (string * V) * list (string * V) :=
  fold_left (fun acc kv =>
               let '(restr, restr_) := acc in
               let '(k, v) := kv in
               if String.prefix "_" k then (restr, sdict_set (drop_first k) v restr_)
               else (sdict_set k v restr, restr_))
            kwargs ([], []).

(** ** UnitPsth.get_plotting_data (pipeline/psth.py)

<<
unit_psth = (UnitPsth & {**condition_key, **unit_key}).fetch1('unit_psth')
if unit_psth is None:
    raise Exception('No spikes found for this unit and trial-condition')
spikes, trials = (ephys.Unit.TrialSpikes & trials & unit_key).fetch(
    'spike_times', 'trial', order_by='trial asc')
raster = [np.concatenate(spikes),
          np.concatenate([[t] * len(s) for s, t in zip(spikes, trials)])]
return dict(trials=trials, spikes=spikes, psth=unit_psth, raster=raster)
>>
    The stored psth and the fetched (spike_times, trial) rows, in trial
    order, are the inputs; [np.concatenate] of no array raises ValueError. *)

Inductive plot_error := NoSpikesFound | ValueError.

Record plot_data := {
  pd_trials : list Z;
  pd_spikes : list (list Q);
  pd_psth : list Q * list Q;
  pd_raster : list Q * list Z
}.

Definition np_concatenate {A} (arrs : list (list A)) : option (list A) :=
  match arrs with [] => None | _ => Some (List.concat arrs) end.

Definition get_plotting_data (unit_psth : option (list Q * list Q))
  (trial_spikes : list (list Q * Z)) : plot_error + plot_data :=
  match unit_psth with
  | None => inl NoSpikesFound
  | Some psth =>
      let spikes := map fst trial_spikes in
      let trials := map snd trial_spikes in
      match np_concatenate spikes,
            np_concatenate (map (fun st => repeat (snd st) (List.length (fst st)))
                              (combine spikes trials)) with
      | Some xs, Some ts =>
          inr {| pd_trials := trials; pd_spikes := spikes; pd_psth := psth;
                 pd_raster := (xs, ts) |}
      | _, _ => inl ValueError
      end
  end.

(** * Properties *)

(** ** dict_to_hash *)

(** Case analysis on every integer comparison of the goal. *)
Ltac leb_cases :=
  repeat (simpl; match goal with
                 | |- context [(?x <=? ?y)%Z] => destruct (Z.leb_spec x y)
                 end).

Module HashingFacts.
Import Hashing.
Section Facts.

Variable V : Type.

Lemma insert_item_comm (a b : Z * V) (l : list (Z * V)) :
  fst a <> fst b ->
  insert_item V a (insert_item V b l) = insert_item V b (insert_item V a l).
Proof.
  intros Hab. induction l as [|c l IH]; leb_cases; try lia; congruence.
Qed.

Lemma sorted_items_perm (d1 d2 : list (Z * V)) :
  Permutation d1 d2 -> NoDup (map fst d1) ->
  sorted_items V d1 = sorted_items V d2.
Proof.
  induction 1 as [|x l l' Hp IH|x y l|l l' l'' H1 IH1 H2 IH2]; intros Hnd; simpl.
  - reflexivity.
  - simpl in Hnd. inversion Hnd; subst. rewrite IH by assumption. reflexivity.
  - simpl in Hnd. inversion Hnd as [|? ? Hni Hnd']; subst.
    apply insert_item_comm. intros Heq. apply Hni. simpl. left. congruence.
  - rewrite IH1 by assumption. apply IH2.
    eapply Permutation_NoDup; [|exact Hnd]. apply Permutation_map. exact H1.
Qed.

End Facts.
End HashingFacts.

(** C5: [dict_to_hash] is a function of the dict's contents: two
    insertion orders of one dict (a permutation of its items, keys
    distinct) give the same digest, whatever [str] and md5 are; being a
    function of its argument, it is reproducible across runs. *)
Theorem dict_to_hash_order_independent (V : Type) (py_str_v : V -> string)
  (md5_hexdigest : string -> string) (d1 d2 : list (Z * V)) :
  NoDup (map fst d1) -> Permutation d1 d2 ->
  Hashing.dict_to_hash V py_str_v md5_hexdigest d1 =
  Hashing.dict_to_hash V py_str_v md5_hexdigest d2.
Proof.
  intros Hnd Hp. unfold Hashing.dict_to_hash.
  rewrite (HashingFacts.sorted_items_perm V d1 d2 Hp Hnd). reflexivity.
Qed.

Lemma dict_to_hash_order_independent_witness :
  NoDup (map fst [(2%Z, "b"); (1%Z, "a")]) /\
  Permutation [(2%Z, "b"); (1%Z, "a")] [(1%Z, "a"); (2%Z, "b")] /\
  Hashing.dict_to_hash string (fun s => s) (fun s => s) [(2%Z, "b"); (1%Z, "a")] =
  Hashing.dict_to_hash string (fun s => s) (fun s => s) [(1%Z, "a"); (2%Z, "b")].
Proof.
  assert (Hnd : NoDup (map fst [(2%Z, "b"); (1%Z, "a")])).
  { simpl. constructor; [simpl; intros [H|H]; [discriminate|contradiction]|].
    constructor; [intros []|constructor]. }
  assert (Hp : Permutation [(2%Z, "b"); (1%Z, "a")] [(1%Z, "a"); (2%Z, "b")]).
  { apply perm_swap. }
  split; [exact Hnd|]. split; [exact Hp|].
  apply (dict_to_hash_order_independent string (fun s => s) (fun s => s) _ _ Hnd Hp).
Defined.

(** ** The electrode-configuration name *)

Module ConfigName.

Lemma combine_removelast_tl (l : list Z) : combine (removelast l) (tl l) = consec l.
Proof.
  induction l as [|a t IH]; [reflexivity|].
  destruct t as [|b t']; [reflexivity|].
  simpl in *. rewrite IH. reflexivity.
Qed.

Lemma where_from_S {A} (p : A -> bool) (i : nat) (l : list A) :
  where_from p (S i) l = map S (where_from p i l).
Proof.
  revert i. induction l as [|x r IH]; intros i; simpl; [reflexivity|].
  destruct (p x); simpl; rewrite IH; reflexivity.
Qed.

Definition gt1 (d : Z) : bool := (1 <? d)%Z.

(** The jump list without its leading [-1]. *)
Definition ends (el : list Z) : list Z :=
  map Z.of_nat (np_where gt1 (np_diff_Z el)) ++ [(Z.of_nat (List.length el) - 1)%Z].

Lemma el_jumps_ends (el : list Z) : el_jumps el = (-1)%Z :: ends el.
Proof. reflexivity. Qed.

Lemma ends_cons2 (x y : Z) (r : list Z) :
  ends (x :: y :: r) =
  ((if gt1 (y - x) then [0%Z] else []) ++ map (fun z => z + 1)%Z (ends (y :: r)))%list.
Proof.
  unfold ends, np_where.
  change (np_diff_Z (x :: y :: r)) with ((y - x)%Z :: np_diff_Z (y :: r)).
  set (L := np_diff_Z (y :: r)).
  change (where_from gt1 0 ((y - x)%Z :: L))
    with (if gt1 (y - x) then 0%nat :: where_from gt1 1 L else where_from gt1 1 L).
  rewrite where_from_S.
  assert (Hm : forall w : list nat,
             (map Z.of_nat (map S w) ++ [(Z.of_nat (List.length (x :: y :: r)) - 1)%Z])%list =
             map (fun z => (z + 1)%Z)
               (map Z.of_nat w ++ [(Z.of_nat (List.length (y :: r)) - 1)%Z])%list).
  { intros w. rewrite !map_app, !map_map. f_equal.
    - apply map_ext. intros. lia.
    - cbn [map]. f_equal. change (List.length (x :: y :: r)) with (S (List.length (y :: r))). lia. }
  destruct (gt1 (y - x)); simpl app; rewrite <- Hm; reflexivity.
Qed.

Lemma ends_nonneg (el : list Z) : el <> [] -> Forall (fun z => 0 <= z)%Z (ends el).
Proof.
  intros Hne. unfold ends. apply Forall_app. split.
  - apply Forall_map. apply Forall_forall. intros. lia.
  - constructor; [|constructor]. destruct el; [congruence|]. change (List.length (z :: el)) with (S (List.length el)). lia.
Qed.

Lemma consec_map (f : Z -> Z) (l : list Z) :
  consec (map f l) = map (fun p => (f (fst p), f (snd p))) (consec l).
Proof.
  induction l as [|a t IH]; [reflexivity|].
  destruct t as [|b t']; [reflexivity|].
  simpl in *. rewrite IH. reflexivity.
Qed.

Lemma consec_bounds (a : Z) (l : list Z) :
  (-1 <= a)%Z -> Forall (fun z => 0 <= z)%Z l ->
  Forall (fun p => -1 <= fst p /\ 0 <= snd p)%Z (consec (a :: l)).
Proof.
  revert a. induction l as [|b t IH]; intros a Ha Hl; simpl; [constructor|].
  inversion Hl; subst. constructor; [simpl; lia|]. apply IH; [lia|assumption].
Qed.

Lemma map_opt_map {A B C} (f : B -> option C) (g : A -> B) (h : A -> option C)
  (P : A -> Prop) (l : list A) :
  Forall P l -> (forall a, P a -> f (g a) = h a) ->
  map_opt f (map g l) = map_opt h l.
Proof.
  intros Hl Hfg. induction Hl as [|a l Ha Hl IH]; simpl; [reflexivity|].
  rewrite Hfg by assumption. rewrite IH. reflexivity.
Qed.

Lemma map_opt_cons {A B} (f : A -> option B) (a : A) (l : list A) :
  map_opt f (a :: l) =
  match f a, map_opt f l with Some y, Some ys => Some (y :: ys) | _, _ => None end.
Proof. reflexivity. Qed.

Lemma run_bounds_shift (x : Z) (l : list Z) (p : Z * Z) :
  (-1 <= fst p /\ 0 <= snd p)%Z ->
  run_bounds (x :: l) ((fst p + 1)%Z, (snd p + 1)%Z) = run_bounds l p.
Proof.
  destruct p as [s e]; simpl; intros [Hs He]. unfold run_bounds, py_index; simpl.
  rewrite (proj2 (Z.ltb_ge (s + 1 + 1) 0)) by lia.
  rewrite (proj2 (Z.ltb_ge (e + 1) 0)) by lia.
  rewrite (proj2 (Z.ltb_ge (s + 1) 0)) by lia.
  rewrite (proj2 (Z.ltb_ge e 0)) by lia.
  replace (Z.to_nat (s + 1 + 1)) with (S (Z.to_nat (s + 1))) by lia.
  replace (Z.to_nat (e + 1)) with (S (Z.to_nat e)) by lia.
  reflexivity.
Qed.

Lemma runs_from_start (a a' b : Z) (r : list Z) :
  runs_from (a, b) r = set_first_start a (runs_from (a', b) r).
Proof.
  revert b. induction r as [|x r IH]; intros b; simpl; [reflexivity|].
  destruct (1 <? x - b)%Z; simpl; [reflexivity|]. apply IH.
Qed.

Lemma run_bounds_head (x y : Z) (r : list Z) (e : Z) : (0 <= e)%Z ->
  run_bounds (x :: y :: r) (-1, e + 1)%Z =
  option_map (fun p => (x, snd p)) (run_bounds (y :: r) (-1, e)%Z).
Proof.
  intros He. unfold run_bounds, py_index. simpl fst; simpl snd.
  rewrite (proj2 (Z.ltb_ge (e + 1) 0)) by lia.
  rewrite (proj2 (Z.ltb_ge e 0)) by lia.
  replace (Z.to_nat (e + 1)) with (S (Z.to_nat e)) by lia.
  cbn. destruct (nth_error (y :: r) (Z.to_nat e)); reflexivity.
Qed.

Definition jump_pairs (el : list Z) : list (Z * Z) := consec (el_jumps el).

Lemma jump_pairs_runs (x : Z) (r : list Z) :
  map_opt (run_bounds (x :: r)) (jump_pairs (x :: r)) = Some (runs_from (x, x) r).
Proof.
  revert x. induction r as [|y r IH]; intros x.
  - unfold jump_pairs, el_jumps, run_bounds, py_index. simpl.
    reflexivity.
  - specialize (IH y). unfold jump_pairs in *.
    rewrite el_jumps_ends in *. rewrite ends_cons2.
    pose proof (ends_nonneg (y :: r) ltac:(discriminate)) as Hnn.
    simpl runs_from. unfold gt1.
    destruct (1 <? y - x)%Z eqn:Hgt; simpl app.
    + change (0%Z) with ((-1) + 1)%Z at 1.
      change ((-1 + 1)%Z :: map (fun z => (z + 1)%Z) (ends (y :: r)))
        with (map (fun z => (z + 1)%Z) ((-1)%Z :: ends (y :: r))).
      change (consec ((-1)%Z :: map (fun z => (z + 1)%Z) ((-1)%Z :: ends (y :: r))))
        with ((-1, (-1) + 1)%Z :: consec (map (fun z => (z + 1)%Z) ((-1)%Z :: ends (y :: r)))).
      rewrite consec_map, map_opt_cons.
      rewrite (map_opt_map _ _ (run_bounds (y :: r)) (fun p => -1 <= fst p /\ 0 <= snd p)%Z);
        [| apply consec_bounds; [lia|exact Hnn]
         | intros p Hp; apply run_bounds_shift; exact Hp].
      rewrite IH. unfold run_bounds, py_index. simpl. reflexivity.
    + destruct (ends (y :: r)) as [|e1 E] eqn:HE; [unfold ends in HE; destruct (map _ _); discriminate|].
      inversion Hnn as [|? ? He1 HE']; subst.
      change (consec ((-1)%Z :: map (fun z => (z + 1)%Z) (e1 :: E)))
        with ((-1, e1 + 1)%Z :: consec (map (fun z => (z + 1)%Z) (e1 :: E))).
      rewrite consec_map.
      change (consec ((-1)%Z :: e1 :: E)) with ((-1, e1)%Z :: consec (e1 :: E)) in IH.
      rewrite map_opt_cons in *.
      rewrite (map_opt_map _ _ (run_bounds (y :: r)) (fun p => -1 <= fst p /\ 0 <= snd p)%Z);
        [| apply consec_bounds; [lia|exact HE']
         | intros p Hp; apply run_bounds_shift; exact Hp].
      rewrite (runs_from_start x y y r), run_bounds_head by exact He1.
      destruct (run_bounds (y :: r) (-1, e1)%Z) as [[c b]|]; [|discriminate].
      destruct (map_opt (run_bounds (y :: r)) (consec (e1 :: E))) as [T|]; [|discriminate].
      injection IH as IH. rewrite <- IH. reflexivity.
Qed.

Lemma run_name_bounds (el : list Z) (se : Z * Z) :
  run_name el se = option_map render_run (run_bounds el se).
Proof.
  destruct se as [s e]. unfold run_name, run_bounds. simpl fst; simpl snd.
  destruct (py_index el (s + 1)), (py_index el e); reflexivity.
Qed.

Lemma map_opt_run_name (el : list Z) (P : list (Z * Z)) :
  map_opt (run_name el) P = option_map (map render_run) (map_opt (run_bounds el) P).
Proof.
  induction P as [|[s e] P IH]; [reflexivity|].
  rewrite !map_opt_cons, IH, run_name_bounds.
  destruct (run_bounds el (s, e)), (map_opt (run_bounds el) P); reflexivity.
Qed.

Lemma insert_Z_nonempty (x : Z) (l : list Z) : insert_Z x l <> [].
Proof. destruct l; simpl; [discriminate|]. destruct (x <=? z)%Z; discriminate. Qed.

End ConfigName.

(** C10: for a non-empty electrode list the configuration name is the
    rendering of the maximal runs of consecutive sorted indices (a run goes
    on while the next index is at most one above), each run as
    ["{start}-{end}"], a singleton [m] as ["m-m"], joined by ["; "]. *)
Theorem ec_name_maximal_runs (electrodes : list Z) :
  electrodes <> [] ->
  ec_name_of electrodes = Some (render_runs (maximal_runs (py_sorted electrodes))).
Proof.
  intros Hne. unfold ec_name_of.
  rewrite ConfigName.combine_removelast_tl.
  destruct (py_sorted electrodes) as [|x r] eqn:Hs.
  - destruct electrodes as [|z l]; [contradiction|].
    exfalso. exact (ConfigName.insert_Z_nonempty z (py_sorted l) Hs).
  - rewrite ConfigName.map_opt_run_name.
    change (consec (el_jumps (x :: r))) with (ConfigName.jump_pairs (x :: r)).
    rewrite ConfigName.jump_pairs_runs. reflexivity.
Qed.

Lemma ec_name_maximal_runs_witness :
  [1; 2; 3; 5]%Z <> [] /\
  ec_name_of [1; 2; 3; 5]%Z = Some (render_runs (maximal_runs (py_sorted [1; 2; 3; 5]%Z))) /\
  render_runs (maximal_runs (py_sorted [1; 2; 3; 5]%Z)) = "1-3; 5-5".
Proof.
  assert (H : [1; 2; 3; 5]%Z <> []) by discriminate.
  split; [exact H|]. split; [exact (ec_name_maximal_runs [1; 2; 3; 5]%Z H)|].
  reflexivity.
Defined.

(** ** Duplicate-spike removal *)

Module DedupFacts.
Import UnitStat.

Lemma where_from_ge {A} (p : A -> bool) (k : nat) (l : list A) (i : nat) :
  In i (where_from p k l) -> (k <= i)%nat.
Proof.
  revert k. induction l as [|x r IH]; intros k; simpl; [contradiction|].
  destruct (p x); simpl; [intros [<-|H]; [lia|]|intros H];
    specialize (IH (S k) H); lia.
Qed.

Lemma in_combine_seq {A} (q : A * nat) (l : list A) (s : nat) :
  In q (combine l (seq s (List.length l))) -> (s <= snd q)%nat.
Proof.
  destruct q as [a i]. intros H. apply in_combine_r in H.
  apply in_seq in H. simpl. lia.
Qed.

(** The deletion pass from position [S k] on, behind the spike [p]. *)
Lemma delete_tail (m p : Q) (k : nat) (l : list Q) :
  map fst (filter (fun q => negb (existsb (Nat.eqb (snd q))
                       (map S (where_from (fun d => Qle_bool d m) k (np_diff (p :: l))))))
             (combine l (seq (S k) (List.length l)))) =
  keep_after m p l.
Proof.
  revert p k. induction l as [|y r IH]; intros p k; [reflexivity|].
  change (np_diff (p :: y :: r)) with ((y - p) :: np_diff (y :: r)).
  change (List.length (y :: r)) with (S (List.length r)).
  cbn [seq combine where_from].
  set (W := where_from (fun d => Qle_bool d m) (S k) (np_diff (y :: r))).
  assert (HW : forall i, In i (map S W) -> (S (S k) <= i)%nat).
  { intros i Hi. apply in_map_iff in Hi. destruct Hi as [j [<- Hj]].
    apply where_from_ge in Hj. lia. }
  assert (Hnot : existsb (Nat.eqb (S k)) (map S W) = false).
  { apply not_true_iff_false. intros Hc. apply existsb_exists in Hc.
    destruct Hc as [i [Hi Heq]]. apply Nat.eqb_eq in Heq. subst.
    specialize (HW _ Hi). lia. }
  assert (Htail : forall q, In q (combine r (seq (S (S k)) (List.length r))) -> (S (S k) <= snd q)%nat).
  { intros q Hq. exact (in_combine_seq q r _ Hq). }
  simpl keep_after. destruct (Qle_bool (y - p) m) eqn:Hle; cbn [map].
  - cbn [filter existsb snd]. rewrite Nat.eqb_refl. simpl negb. cbv iota.
    rewrite (filter_ext_in _ (fun q => negb (existsb (Nat.eqb (snd q)) (map S W)))).
    + apply IH.
    + intros q Hq. specialize (Htail q Hq).
      rewrite (proj2 (Nat.eqb_neq _ _)) by lia. reflexivity.
  - cbn [filter snd]. rewrite Hnot. simpl negb. cbv iota. cbn [map fst].
    f_equal. apply IH.
Qed.

Lemma remove_duplicates_cons (m x : Q) (r : list Q) :
  remove_duplicates m (x :: r) = x :: keep_after m x r.
Proof.
  unfold remove_duplicates, np_delete, np_where.
  change (List.length (x :: r)) with (S (List.length r)).
  cbn [seq combine filter snd].
  assert (H0 : existsb (Nat.eqb 0) (map S (where_from (fun d => Qle_bool d m) 0 (np_diff (x :: r)))) = false).
  { apply not_true_iff_false. intros Hc. apply existsb_exists in Hc.
    destruct Hc as [i [Hi Heq]]. apply in_map_iff in Hi. destruct Hi as [j [<- _]].
    discriminate. }
  rewrite H0. cbn [negb map fst]. f_equal. apply delete_tail.
Qed.

Lemma keep_after_idem (m : Q) (r : list Q) :
  forall p q, q <= p -> nondecreasing (p :: r) = true ->
  keep_after m q (keep_after m p r) = keep_after m p r.
Proof.
  induction r as [|y r IH]; intros p q Hqp Hnd; [reflexivity|].
  simpl in Hnd. apply andb_prop in Hnd. destruct Hnd as [Hpy Hnd].
  apply Qle_bool_iff in Hpy.
  simpl. destruct (Qle_bool (y - p) m) eqn:Hle.
  - apply IH; [lra|exact Hnd].
  - simpl. assert (Hlt : m < y - p).
    { apply Qnot_le_lt. intros Hc. apply Qle_bool_iff in Hc. congruence. }
    replace (Qle_bool (y - q) m) with false.
    + f_equal. apply IH; [lra|exact Hnd].
    + symmetry. apply not_true_iff_false. intros Hc. apply Qle_bool_iff in Hc. lra.
Qed.

End DedupFacts.

(** C9: on a nondecreasing spike train, the duplicate-spike removal step of
    UnitStat.make is idempotent, for every threshold [m]. *)
Theorem remove_duplicates_idempotent (m : Q) (spike_train : list Q) :
  UnitStat.nondecreasing spike_train = true ->
  UnitStat.remove_duplicates m (UnitStat.remove_duplicates m spike_train) =
  UnitStat.remove_duplicates m spike_train.
Proof.
  intros Hnd. destruct spike_train as [|x r]; [reflexivity|].
  rewrite !DedupFacts.remove_duplicates_cons. f_equal.
  apply DedupFacts.keep_after_idem; [lra|exact Hnd].
Qed.

Lemma remove_duplicates_idempotent_witness :
  UnitStat.nondecreasing [1; 1; 2; 2; 3] = true /\
  UnitStat.remove_duplicates 0 (UnitStat.remove_duplicates 0 [1; 1; 2; 2; 3]) =
  UnitStat.remove_duplicates 0 [1; 1; 2; 2; 3].
Proof.
  assert (H : UnitStat.nondecreasing [1; 1; 2; 2; 3] = true) by reflexivity.
  split; [exact H|]. exact (remove_duplicates_idempotent 0 _ H).
Defined.

(** ** UnitStat.make *)

Definition one_spike_trial (x start stop : Q) : UnitStat.trial :=
  {| UnitStat.trial_spikes := [x]; UnitStat.start_time := start; UnitStat.stop_time := stop |}.

(** C3 (claim as stated fails): one trial [0, 2] holding one spike at 1 s;
    the claim expects avg_firing_rate = 1 / (2 - 0), the code stores null. *)
Lemma unit_stat_one_spike_counterexample :
  ~ (exists a, UnitStat.unit_stat [one_spike_trial 1 0 2] = Some (None, Some a) /\
               a == 1 / (2 - 0)).
Proof.
  intros [a [H _]]. vm_compute in H. discriminate.
Qed.

(** C3 (as amended): with a single trial holding exactly one spike there is
    no inter-spike interval, and UnitStat.make stores null for both
    isi_violation and avg_firing_rate; nothing is divided. *)
Theorem unit_stat_one_spike_null (x start stop : Q) :
  UnitStat.unit_stat [one_spike_trial x start stop] = Some (None, None).
Proof. reflexivity. Qed.

(** C7: when the trains hold at least one inter-spike interval (and the
    trial durations do not sum to zero, where Python's float division would
    raise), avg_firing_rate is the number of spikes left by duplicate
    removal over the summed trial durations, and isi_violation is
    (violations / (2 * that number * (0.002 - 0))) / avg_firing_rate, the
    violations being the intervals of the original trains below 0.002 s. *)
Theorem unit_stat_formulas (trials : list UnitStat.trial) :
  (0 < List.length (List.concat (map (fun t => UnitStat.np_diff (UnitStat.trial_spikes t)) trials)))%nat ->
  ~ (UnitStat.Qsum (map (fun t => UnitStat.stop_time t - UnitStat.start_time t) trials) == 0) ->
  let n := inject_Z (Z.of_nat (List.length (List.concat
             (map (fun t => UnitStat.remove_duplicates 0 (UnitStat.trial_spikes t)) trials)))) in
  let d := UnitStat.Qsum (map (fun t => UnitStat.stop_time t - UnitStat.start_time t) trials) in
  let nv := inject_Z (Z.of_nat (List.length (filter (fun isi => negb (Qle_bool (2 # 1000) isi))
             (List.concat (map (fun t => UnitStat.np_diff (UnitStat.trial_spikes t)) trials))))) in
  UnitStat.unit_stat trials =
  Some (Some ((nv / (2 * n * ((2 # 1000) - 0))) / (n / d)), Some (n / d)).
Proof.
  intros Hisi Hd n d nv. unfold UnitStat.unit_stat.
  destruct trials as [|t0 trs]; [simpl in Hisi; lia|].
  rewrite (proj2 (Nat.ltb_lt _ _) Hisi).
  destruct (Qeq_bool _ 0) eqn:Hq.
  - apply Qeq_bool_iff in Hq. contradiction.
  - reflexivity.
Qed.

Definition stat_example : list UnitStat.trial :=
  [ {| UnitStat.trial_spikes := [0; 1 # 2; 1; 3 # 2];
       UnitStat.start_time := 0; UnitStat.stop_time := 2 |};
    {| UnitStat.trial_spikes := [2; 5 # 2; 3; 7 # 2; 4; 9 # 2];
       UnitStat.start_time := 2; UnitStat.stop_time := 5 |} ].

Lemma unit_stat_formulas_witness :
  (0 < List.length (List.concat (map (fun t => UnitStat.np_diff (UnitStat.trial_spikes t)) stat_example)))%nat /\
  ~ (UnitStat.Qsum (map (fun t => UnitStat.stop_time t - UnitStat.start_time t) stat_example) == 0) /\
  map (fun t => List.length (UnitStat.remove_duplicates 0 (UnitStat.trial_spikes t))) stat_example = [4; 6]%nat /\
  (exists iv a, UnitStat.unit_stat stat_example = Some (Some iv, Some a) /\ a == 2).
Proof.
  assert (H1 : (0 < List.length (List.concat (map (fun t => UnitStat.np_diff (UnitStat.trial_spikes t)) stat_example)))%nat)
    by (vm_compute; lia).
  assert (H2 : ~ (UnitStat.Qsum (map (fun t => UnitStat.stop_time t - UnitStat.start_time t) stat_example) == 0))
    by (vm_compute; discriminate).
  split; [exact H1|]. split; [exact H2|]. split; [reflexivity|].
  pose proof (unit_stat_formulas stat_example H1 H2) as H. simpl in H.
  eexists; eexists. split; [exact H|]. reflexivity.
Defined.

(** ** Unit assembly *)

Module AssemblyFacts.

Lemma insert_Z_perm (x : Z) (l : list Z) : Permutation (x :: l) (insert_Z x l).
Proof.
  induction l as [|a l IH]; simpl; [reflexivity|].
  destruct (x <=? a)%Z; [reflexivity|].
  etransitivity; [apply perm_swap|]. constructor. exact IH.
Qed.

Lemma py_sorted_perm (l : list Z) : Permutation l (py_sorted l).
Proof.
  induction l as [|x l IH]; simpl; [reflexivity|].
  etransitivity; [constructor; exact IH|]. apply insert_Z_perm.
Qed.

Lemma insert_Z_sorted (x : Z) (l : list Z) :
  Sorted Z.le l -> Sorted Z.le (insert_Z x l).
Proof.
  induction 1 as [|a l Hl IH Hhd]; simpl; [repeat constructor|].
  destruct (Z.leb_spec x a).
  - constructor; [constructor; assumption|]. constructor. assumption.
  - constructor; [exact IH|].
    destruct l as [|b l]; simpl; [constructor; lia|].
    inversion Hhd; subst. destruct (x <=? b)%Z; constructor; lia.
Qed.

Lemma py_sorted_sorted (l : list Z) : Sorted Z.le (py_sorted l).
Proof.
  induction l as [|x l IH]; simpl; [constructor|]. apply insert_Z_sorted. exact IH.
Qed.

Lemma dedup_sorted_in (l : list Z) (x : Z) : In x (dedup_sorted l) <-> In x l.
Proof.
  induction l as [|a t IH]; [reflexivity|].
  destruct t as [|b t']; [reflexivity|].
  change (dedup_sorted (a :: b :: t'))
    with (if Z.eqb a b then dedup_sorted (b :: t') else a :: dedup_sorted (b :: t')).
  destruct (Z.eqb_spec a b) as [<-|Hab].
  - rewrite IH. simpl. tauto.
  - simpl. rewrite IH. simpl. tauto.
Qed.

Lemma dedup_sorted_nodup (l : list Z) : Sorted Z.le l -> NoDup (dedup_sorted l).
Proof.
  intros Hs. apply Sorted_StronglySorted in Hs; [|intros ? ? ?; lia].
  induction l as [|a t IH]; [constructor|].
  destruct t as [|b t']; [constructor; [intros []|constructor]|].
  inversion Hs as [|? ? Hs' Hf]; subst.
  change (dedup_sorted (a :: b :: t'))
    with (if Z.eqb a b then dedup_sorted (b :: t') else a :: dedup_sorted (b :: t')).
  destruct (Z.eqb_spec a b) as [<-|Hab]; [apply IH; exact Hs'|].
  constructor; [|apply IH; exact Hs'].
  rewrite dedup_sorted_in. intros [Hb|Hin]; [congruence|].
  inversion Hs' as [|? ? _ Hfb]; subst.
  rewrite Forall_forall in Hf, Hfb.
  specialize (Hf b (or_introl eq_refl)). specialize (Hfb a Hin). lia.
Qed.

Lemma py_set_order_in (l : list Z) (x : Z) : In x (py_set_order l) <-> In x l.
Proof.
  unfold py_set_order. rewrite dedup_sorted_in. split; apply Permutation_in;
    [symmetry|]; apply py_sorted_perm.
Qed.

Lemma py_set_order_nodup (l : list Z) : NoDup (py_set_order l).
Proof. apply dedup_sorted_nodup, py_sorted_sorted. Qed.

Lemma mask_select_units (units : list Z) :
  mask_select units (noise_mask units) = Some (filter (fun u => (0 <? u)%Z) units).
Proof.
  unfold mask_select, noise_mask. rewrite length_map, Nat.eqb_refl. f_equal.
  induction units as [|u r IH]; simpl; [reflexivity|].
  destruct (0 <? u)%Z; simpl; [f_equal|]; exact IH.
Qed.

Lemma mask_select_len {A} (v : list A) (units : list Z) :
  List.length units = List.length v ->
  mask_select v (noise_mask units) = Some (map fst (filter snd (combine v (noise_mask units)))).
Proof.
  intros H. unfold mask_select, noise_mask. rewrite length_map, H, Nat.eqb_refl. reflexivity.
Qed.

Lemma select_unit_map {A B} (f : A -> B) (units : list Z) (arr : list A) (u : Z) :
  select_unit units (map f arr) u = map f (select_unit units arr u).
Proof.
  unfold select_unit. revert arr. induction units as [|v r IH]; intros [|a arr]; simpl;
    try reflexivity.
  destruct (Z.eqb v u); simpl; [f_equal|]; apply IH.
Qed.

Lemma select_unit_masked {A} (units : list Z) (arr : list A) (u : Z) :
  List.length units = List.length arr -> (0 < u)%Z ->
  select_unit (filter (fun v => (0 <? v)%Z) units)
    (map fst (filter snd (combine arr (noise_mask units)))) u =
  select_unit units arr u.
Proof.
  intros Hlen Hu. unfold select_unit, noise_mask. revert arr Hlen.
  induction units as [|v r IH]; intros [|a arr] Hlen; simpl in *; try discriminate;
    [reflexivity|].
  injection Hlen as Hlen.
  destruct (Z.ltb_spec 0 v); simpl.
  - destruct (Z.eqb v u); simpl; [f_equal|]; apply IH; exact Hlen.
  - rewrite (proj2 (Z.eqb_neq v u)) by lia. apply IH. exact Hlen.
Qed.

End AssemblyFacts.

(** C6: noise exclusion and unit conversion. With equally long per-spike
    arrays, the surviving unit ids are exactly the ids [u > 0] of the input,
    each once, and a surviving unit's spike array is the spike times
    attributed to that very id in the input ([select_unit]: the positions
    where [units == u]), in their original order, divided by the sampling
    rate; no spike of an id [<= 0] is kept. *)
Theorem assemble_units_noise_excluded (units : list Z) (spikes : list Q) (rate : Q) :
  List.length units = List.length spikes ->
  exists out, assemble_units units spikes rate = Some out /\
    NoDup (map fst out) /\
    (forall u, In u (map fst out) <-> In u units /\ (0 < u)%Z) /\
    (forall u ts, In (u, ts) out ->
       (0 < u)%Z /\ ts = map (fun t => t / rate) (select_unit units spikes u)).
Proof.
  intros Hlen. unfold assemble_units.
  rewrite AssemblyFacts.mask_select_units, (AssemblyFacts.mask_select_len spikes units Hlen).
  eexists. split; [reflexivity|].
  rewrite map_map. simpl. rewrite map_id.
  split; [apply AssemblyFacts.py_set_order_nodup|]. split.
  - intros u. rewrite AssemblyFacts.py_set_order_in, filter_In, Z.ltb_lt. tauto.
  - intros u ts Hin. apply in_map_iff in Hin. destruct Hin as [v [Heq Hv]].
    injection Heq as <- <-.
    rewrite AssemblyFacts.py_set_order_in, filter_In, Z.ltb_lt in Hv.
    split; [tauto|].
    rewrite AssemblyFacts.select_unit_map, AssemblyFacts.select_unit_masked by tauto.
    reflexivity.
Qed.

Lemma assemble_units_noise_excluded_witness :
  List.length [-1; 0; 3; 5; 3]%Z = List.length [1; 2; 3; 4; 5] /\
  (exists out, assemble_units [-1; 0; 3; 5; 3]%Z [1; 2; 3; 4; 5] 1 = Some out /\
               map fst out = [3; 5]%Z) /\
  List.length [-1; -1; 2; 2; 2]%Z = List.length [10; 20; 30; 40; 50] /\
  (exists ts, assemble_units [-1; -1; 2; 2; 2]%Z [10; 20; 30; 40; 50] 100 = Some [(2%Z, ts)] /\
              Forall2 Qeq ts [3 # 10; 4 # 10; 5 # 10]).
Proof.
  assert (H1 : List.length [-1; 0; 3; 5; 3]%Z = List.length [1; 2; 3; 4; 5]) by reflexivity.
  assert (H2 : List.length [-1; -1; 2; 2; 2]%Z = List.length [10; 20; 30; 40; 50])
    by reflexivity.
  split; [exact H1|]. split.
  - destruct (assemble_units_noise_excluded _ _ 1 H1) as [out [Hout _]].
    exists out. split; [exact Hout|].
    vm_compute in Hout. injection Hout as <-. reflexivity.
  - split; [exact H2|].
    destruct (assemble_units_noise_excluded _ _ 100 H2) as [out [Hout [_ [_ Hts]]]].
    vm_compute in Hout. injection Hout as <-.
    eexists. split; [reflexivity|].
    repeat constructor.
Defined.

(** ** UnitPsth *)

(** C8 (code evaluated at the failing input): no spike rows give a NULL
    psth; one trial with one spike at 2.98 s gives 149 bins whose last right
    edge is 2.96 s ([np.arange(-3, 3, 0.04)] stops before 3) and a rate of 0
    in every bin: the spike, inside the stated window [-3 s, 3 s), is not
    counted. *)
Theorem unit_psth_window_ends_at_2_96 :
  Psth.unit_psth_make [] = None /\
  exists psth edges,
    Psth.unit_psth_make [[149 # 50]] = Some (psth, edges) /\
    List.length psth = 149%nat /\
    last edges 0 == 74 # 25 /\
    forallb (fun r => Qeq_bool r 0) psth = true.
Proof.
  split; [reflexivity|].
  destruct (Psth.unit_psth_make [[149 # 50]]) as [[psth edges]|] eqn:H;
    [|vm_compute in H; discriminate].
  exists psth, edges. split; [reflexivity|].
  vm_compute in H. injection H as <- <-.
  split; [reflexivity|]. split; reflexivity.
Qed.

(** ** Electrode-configuration resolution *)

Module ConfigFacts.

(** [(q_electrodes & {'electrode': eid}).fetch1('KEY')] as a pure lookup. *)
Definition fetch_member (labdb : lab_db) (pt : string) (eid : Z) : option (string * Z) :=
  match filter (fun k => String.eqb (fst k) pt && Z.eqb (snd k) eid)
          (lab_type_electrodes labdb) with
  | [a] => Some a
  | _ => None
  end.

Lemma fetch_electrode_eq (pt : string) (eid : Z) (s : db) :
  fetch_electrode pt eid s =
  match fetch_member (lab s) pt eid with
  | Some a => Ret a s
  | None => Raise DataJointError s
  end.
Proof.
  unfold fetch_electrode, bind, get_lab, fetch_member, fetch1, ret, raise.
  destruct (filter _ (lab_type_electrodes (lab s))) as [|a [|b t]]; reflexivity.
Qed.

Lemma mapM_fetch_electrode (pt : string) (l : list Z) (s : db) :
  mapM (fetch_electrode pt) l s =
  match map_opt (fetch_member (lab s) pt) l with
  | Some v => Ret v s
  | None => Raise DataJointError s
  end.
Proof.
  induction l as [|eid l IH]; [reflexivity|].
  cbn [mapM map_opt]. unfold bind at 1. rewrite fetch_electrode_eq.
  destruct (fetch_member (lab s) pt eid) as [a|]; [|reflexivity].
  cbv beta iota. unfold bind. rewrite IH.
  destruct (map_opt (fetch_member (lab s) pt) l); reflexivity.
Qed.


(** The ElectrodeConfig dict carries [probe] and [probe_comment], which
    are not attributes of lab.ElectrodeConfig. *)
Lemma insert_electrode_config_keyerror (r : row) (s : db) :
  insert1_dict heading_ElectrodeConfig (e_config_fields ++ ["electrode_config_hash"]) r s =
  Raise KeyError s.
Proof. reflexivity. Qed.






End ConfigFacts.


(** ** A session with one probe *)

Definition probe0 : probe_row :=
  {| probe := "A1x32"; probe_type := "A1x32-Poly2"; probe_comment := "" |}.

Definition lab0 : lab_db := {|
  lab_probes := [probe0];
  lab_type_electrodes := [("A1x32-Poly2", 1%Z); ("A1x32-Poly2", 2%Z)] |}.

Definition db0 : db := {| lab := lab0; rows := [] |}.

Definition sk0 : session_key := {| subject_id := "vIRt47"; session := 7 |}.

(** One probe's loader output: unit -1 is noise, unit 2 has two spikes. *)
Definition probe_data (method : string) : ephys_data := {|
  ephys_file := "vIRt47_0807_5000_jrc.mat";
  probe_sel := ByProbe "A1x32";
  electrodes := [1; 2]%Z;
  sampling_rate := 100;
  adapter := "A32-OM32";
  headstage := "RHD2132";
  clustering_method := method;
  unit_ids := [-1; 2; 2]%Z;
  spike_times := [10; 20; 30];
  spike_sites := [1; 2; 2]%Z;
  spike_depths := [0; 0; 0];
  unit_electrode := [2%Z];
  unit_quality := ["good"];
  unit_posx := [0];
  unit_posy := [0];
  unit_amp := [1];
  unit_snr := [1];
  waveform := [[[0; 1; 0]]] |}.

Definition is_unit_row (r : row) : bool :=
  match r with UnitRow _ _ _ _ _ | WaveformRow _ _ _ _ _ => true | _ => false end.

Definition is_electrode_config_row (r : row) : bool :=
  match r with
  | ElectrodeConfigRow _ _ _ | ElectrodeGroupRow _ _ _ | ConfigElectrodeRow _ _ _ => true
  | _ => false
  end.

(** A concrete digest for the concrete runs below; the properties above
    hold for every digest function. *)
Definition digest0 (data : string) : string := data.

(** ** Ingestion runs *)

Module IngestFacts.

Lemma resolve_probe_cases (prev : option probe_row) (d : ephys_data) (s : db) :
  (exists pk, resolve_probe prev d s = Ret pk s) \/
  resolve_probe prev d s = Raise DataJointError s \/
  resolve_probe prev d s = Raise NameError s.
Proof.
  unfold resolve_probe, bind, get_lab, fetch1, lift_opt, ret, raise.
  destruct (probe_sel d).
  - destruct (filter _ _) as [|a [|b t]]; eauto.
  - destruct (filter _ _) as [|a [|b t]]; eauto.
  - destruct prev; eauto.
Qed.

Lemma gen_electrode_config_outcome (md5_hexdigest : string -> string) (pk : probe_row)
  (l : list Z) (s : db) :
  match gen_electrode_config md5_hexdigest pk l s with
  | Ret _ s1 => s1 = s
  | Raise e s1 => s1 = s /\ (e = DataJointError \/ e = IndexError \/ e = KeyError)
  end.
Proof.
  unfold gen_electrode_config. unfold bind at 1.
  rewrite ConfigFacts.mapM_fetch_electrode.
  destruct (map_opt _ l) as [members|]; [|auto].
  unfold lift_opt.
  destruct (ec_name_of (map snd members)) as [name|]; [|simpl; auto].
  unfold bind, ret, config_hash_exists.
  destruct (hash_in_rows _ (rows s)); [reflexivity|].
  rewrite ConfigFacts.insert_electrode_config_keyerror. auto.
Qed.

(** The ProbeInsertion dict carries [probe_comment], which is not an
    attribute of ephys.ProbeInsertion. *)
Lemma insert_probe_insertion_keyerror (r : row) (s : db) :
  insert1_dict heading_ProbeInsertion
    (session_fields ++ ["insertion_number"] ++ probe_fields ++ e_config_fields) r s =
  Raise KeyError s.
Proof. reflexivity. Qed.

Lemma ingest_probe_raises (md5_hexdigest : string -> string) (sk : session_key) (ins : Z)
  (prev : option probe_row) (d : ephys_data) (s : db) :
  exists e, ingest_probe md5_hexdigest sk ins prev d s = Raise e s /\
    (e = DataJointError \/ e = NameError \/ e = IndexError \/ e = KeyError).
Proof.
  unfold ingest_probe. unfold bind at 1.
  destruct (resolve_probe_cases prev d s) as [[pk Hr]|[Hr|Hr]]; rewrite Hr;
    [|eauto|eauto].
  cbv beta iota. unfold bind at 1.
  pose proof (gen_electrode_config_outcome md5_hexdigest pk (electrodes d) s) as Hg.
  destruct (gen_electrode_config md5_hexdigest pk (electrodes d) s) as [k s1|e s1];
    cbv beta iota.
  - subst s1. unfold bind at 1. rewrite insert_probe_insertion_keyerror.
    exists KeyError. auto.
  - destruct Hg as [-> He]. exists e. split; [reflexivity|]. tauto.
Qed.

Lemma make_with_probe_raises (md5_hexdigest : string -> string) (key : session_key)
  (d : ephys_data) (ds : list ephys_data) (s : db) :
  exists e, make md5_hexdigest key (d :: ds) s = Raise e s /\
    (e = DataJointError \/ e = NameError \/ e = IndexError \/ e = KeyError).
Proof.
  destruct (ingest_probe_raises md5_hexdigest key 0 None d s) as [e [H He]].
  exists e. split; [|exact He].
  unfold make. cbn [ingest_probes]. unfold bind. cbv beta. rewrite H. reflexivity.
Qed.

End IngestFacts.

(** C1 (code evaluated at the failing input): for one probe clustered with
    jrclust_v3, whose unit 2 survives noise removal, EphysIngestion.make
    raises KeyError at the probe's ElectrodeConfig insert (the dict carries
    the lab.Probe fields probe and probe_comment) and stores nothing. No run
    of make on a loader output with a probe returns normally: each raises
    at its first probe with the store it was given, so none stores the
    ProbeInsertion, RecordingSystemSetup, Clustering, Unit or Waveform rows
    of a probe. *)
Theorem make_with_probe_stores_nothing :
  option_map (map fst) (assemble_units (unit_ids (probe_data "jrclust_v3"))
                          (spike_times (probe_data "jrclust_v3")) 100) = Some [2%Z] /\
  make digest0 sk0 [probe_data "jrclust_v3"] db0 = Raise KeyError db0 /\
  (forall (md5_hexdigest : string -> string) (key : session_key) (d : ephys_data)
          (ds : list ephys_data) (s : db),
     exists e, make md5_hexdigest key (d :: ds) s = Raise e s).
Proof.
  split; [reflexivity|]. split; [vm_compute; reflexivity|].
  intros md5_hexdigest key d ds s.
  destruct (IngestFacts.make_with_probe_raises md5_hexdigest key d ds s) as [e [H _]].
  exists e. exact H.
Qed.





(** * Further properties of the pipeline code *)

(** ** InsertBuffer *)

(** [flush] inserts nothing and keeps its queue when the queue is empty,
    whatever the chunk size (0 included), and when the queue's length is
    not a multiple of a nonzero chunk size: it returns [None]. *)
Theorem flush_skips (rel_insert : list row -> M unit) (chunksz_arg : option Z)
  (b : InsertBuffer.buffer) (s : db) :
  let c := match chunksz_arg with None => InsertBuffer.chunksz b | Some c => c end in
  InsertBuffer.queue b = [] \/
  (c <> 0 /\ Z.of_nat (List.length (InsertBuffer.queue b)) mod c <> 0)%Z ->
  InsertBuffer.flush rel_insert chunksz_arg b s = InsertBuffer.BRet None b s.
Proof.
  intros c [Hq|[Hc Hm]]; unfold InsertBuffer.flush; fold c.
  - rewrite Hq. reflexivity.
  - destruct (0 <? _)%Z; [|reflexivity].
    rewrite (proj2 (Z.eqb_neq _ _) Hc), (proj2 (Z.eqb_neq _ _) Hm). reflexivity.
Qed.

Lemma flush_skips_witness :
  (InsertBuffer.queue (InsertBuffer.insert1 (EphysIngestionRow sk0) (InsertBuffer.init 2)) = [] \/
   (2 <> 0 /\ Z.of_nat (List.length (InsertBuffer.queue
      (InsertBuffer.insert1 (EphysIngestionRow sk0) (InsertBuffer.init 2)))) mod 2 <> 0)%Z) /\
  InsertBuffer.flush insert None (InsertBuffer.insert1 (EphysIngestionRow sk0) (InsertBuffer.init 2)) db0 =
    InsertBuffer.BRet None (InsertBuffer.insert1 (EphysIngestionRow sk0) (InsertBuffer.init 2)) db0.
Proof.
  assert (H : InsertBuffer.queue (InsertBuffer.insert1 (EphysIngestionRow sk0) (InsertBuffer.init 2)) = [] \/
   (2 <> 0 /\ Z.of_nat (List.length (InsertBuffer.queue
      (InsertBuffer.insert1 (EphysIngestionRow sk0) (InsertBuffer.init 2)))) mod 2 <> 0)%Z).
  { right. simpl. split; discriminate. }
  split; [exact H|]. exact (flush_skips insert None _ db0 H).
Defined.

(** With a positive chunk size [c] and fewer than [c] queued records,
    [insert1] followed by [flush()] keeps fewer than [c] records queued:
    either nothing is sent and the record is appended to the queue, or the
    queue together with the record, exactly [c] records in insertion order,
    is sent in one [insert] and the queue is emptied; if that insert raises,
    the exception is passed on and the records stay queued. *)
Theorem insert1_flush_step (rel_insert : list row -> M unit) (r : row)
  (b : InsertBuffer.buffer) (s : db) :
  (0 < InsertBuffer.chunksz b)%Z ->
  (Z.of_nat (List.length (InsertBuffer.queue b)) < InsertBuffer.chunksz b)%Z ->
  match InsertBuffer.flush rel_insert None (InsertBuffer.insert1 r b) s with
  | InsertBuffer.BRet None b' s' =>
      s' = s /\ InsertBuffer.queue b' = (InsertBuffer.queue b ++ [r])%list /\
      InsertBuffer.chunksz b' = InsertBuffer.chunksz b /\
      (Z.of_nat (List.length (InsertBuffer.queue b')) < InsertBuffer.chunksz b)%Z
  | InsertBuffer.BRet (Some n) b' s' =>
      n = InsertBuffer.chunksz b /\ b' = InsertBuffer.init (InsertBuffer.chunksz b) /\
      rel_insert (InsertBuffer.queue b ++ [r])%list s = Ret tt s'
  | InsertBuffer.BRaise e b' s' =>
      exists e', e = InsertBuffer.Db e' /\ b' = InsertBuffer.insert1 r b /\
      rel_insert (InsertBuffer.queue b ++ [r])%list s = Raise e' s'
  end.
Proof.
  intros Hc Hlt. unfold InsertBuffer.flush. cbn [InsertBuffer.queue InsertBuffer.insert1 InsertBuffer.chunksz].
  rewrite length_app. simpl List.length.
  set (n := Z.of_nat (List.length (InsertBuffer.queue b) + 1)).
  assert (Hn : (0 < n <= InsertBuffer.chunksz b)%Z) by (unfold n; lia).
  rewrite (proj2 (Z.ltb_lt _ _)) by lia.
  rewrite (proj2 (Z.eqb_neq _ _)) by lia.
  destruct (Z.eq_dec n (InsertBuffer.chunksz b)) as [Heq|Hne].
  - rewrite Heq, Z_mod_same_full, Z.eqb_refl.
    destruct (rel_insert _ s) as [[] s'|e s'] eqn:Hr.
    + split; [reflexivity|]. split; reflexivity.
    + exists e. split; [reflexivity|]. split; reflexivity.
  - rewrite Z.mod_small by lia. rewrite (proj2 (Z.eqb_neq _ _)) by lia.
    split; [reflexivity|]. split; [reflexivity|]. split; [reflexivity|].
    simpl. rewrite length_app. simpl. lia.
Qed.

Definition buffer_ex : InsertBuffer.buffer :=
  InsertBuffer.insert1 (EphysIngestionRow sk0) (InsertBuffer.init 2).

Lemma insert1_flush_step_witness :
  (0 < InsertBuffer.chunksz buffer_ex)%Z /\
  (Z.of_nat (List.length (InsertBuffer.queue buffer_ex)) < InsertBuffer.chunksz buffer_ex)%Z /\
  match InsertBuffer.flush insert None (InsertBuffer.insert1 (EphysFileRow sk0 "a.mat") buffer_ex) db0 with
  | InsertBuffer.BRet None b' s' =>
      s' = db0 /\ InsertBuffer.queue b' = (InsertBuffer.queue buffer_ex ++ [EphysFileRow sk0 "a.mat"])%list /\
      InsertBuffer.chunksz b' = InsertBuffer.chunksz buffer_ex /\
      (Z.of_nat (List.length (InsertBuffer.queue b')) < InsertBuffer.chunksz buffer_ex)%Z
  | InsertBuffer.BRet (Some n) b' s' =>
      n = InsertBuffer.chunksz buffer_ex /\ b' = InsertBuffer.init (InsertBuffer.chunksz buffer_ex) /\
      insert (InsertBuffer.queue buffer_ex ++ [EphysFileRow sk0 "a.mat"])%list db0 = Ret tt s'
  | InsertBuffer.BRaise e b' s' =>
      exists e', e = InsertBuffer.Db e' /\ b' = InsertBuffer.insert1 (EphysFileRow sk0 "a.mat") buffer_ex /\
      insert (InsertBuffer.queue buffer_ex ++ [EphysFileRow sk0 "a.mat"])%list db0 = Raise e' s'
  end.
Proof.
  assert (H1 : (0 < InsertBuffer.chunksz buffer_ex)%Z) by (vm_compute; reflexivity).
  assert (H2 : (Z.of_nat (List.length (InsertBuffer.queue buffer_ex)) < InsertBuffer.chunksz buffer_ex)%Z)
    by (vm_compute; reflexivity).
  split; [exact H1|]. split; [exact H2|].
  exact (insert1_flush_step insert (EphysFileRow sk0 "a.mat") buffer_ex db0 H1 H2).
Defined.

(** Leaving the [with] block normally flushes the whole queue with chunk
    size 1, whatever chunk size the buffer was made with (0 included): a
    non-empty queue goes to the table in one atomic insert, after which the
    queue is empty and its length is returned; if a row clashes, the
    DataJointError is passed on, nothing is stored and the queue is kept.
    Leaving the block on an exception re-raises it and inserts nothing. *)
Theorem exit_flushes_queue (b : InsertBuffer.buffer) (s : db) :
  InsertBuffer.queue b <> [] ->
  InsertBuffer.exit insert None b s =
    (if fits (rows s) (InsertBuffer.queue b)
     then InsertBuffer.BRet (Some (Z.of_nat (List.length (InsertBuffer.queue b))))
            (InsertBuffer.init (InsertBuffer.chunksz b))
            {| lab := lab s; rows := (rows s ++ InsertBuffer.queue b)%list |}
     else InsertBuffer.BRaise (InsertBuffer.Db DataJointError) b s) /\
  (forall e, InsertBuffer.exit insert (Some e) b s = InsertBuffer.BRaise e b s).
Proof.
  intros Hq. split; [|reflexivity].
  unfold InsertBuffer.exit, InsertBuffer.flush, insert.
  destruct (InsertBuffer.queue b) as [|r q] eqn:Hb; [contradiction|].
  rewrite (proj2 (Z.ltb_lt _ _)) by (simpl List.length; lia).
  rewrite Z.mod_1_r. simpl Z.eqb. cbv iota.
  destruct (fits (rows s) (r :: q)); reflexivity.
Qed.

Lemma exit_flushes_queue_witness :
  InsertBuffer.queue buffer_ex <> [] /\
  InsertBuffer.exit insert None buffer_ex db0 =
    (if fits (rows db0) (InsertBuffer.queue buffer_ex)
     then InsertBuffer.BRet (Some (Z.of_nat (List.length (InsertBuffer.queue buffer_ex))))
            (InsertBuffer.init (InsertBuffer.chunksz buffer_ex))
            {| lab := lab db0; rows := (rows db0 ++ InsertBuffer.queue buffer_ex)%list |}
     else InsertBuffer.BRaise (InsertBuffer.Db DataJointError) buffer_ex db0) /\
  (forall e, InsertBuffer.exit insert (Some e) buffer_ex db0 = InsertBuffer.BRaise e buffer_ex db0).
Proof.
  assert (H : InsertBuffer.queue buffer_ex <> []) by discriminate.
  split; [exact H|]. exact (exit_flushes_queue buffer_ex db0 H).
Defined.

(** ** EphysIngestion.make *)

(** With no probe data from the loader, EphysIngestion.make inserts the
    EphysIngestion row of the session key and no EphysFile row; if that key
    is already ingested it raises DataJointError and stores nothing. *)
Theorem make_no_probes (md5_hexdigest : string -> string) (key : session_key) (s : db) :
  make md5_hexdigest key [] s =
  if existsb (clash (EphysIngestionRow key)) (rows s) then Raise DataJointError s
  else Ret tt {| lab := lab s; rows := (rows s ++ [EphysIngestionRow key])%list |}.
Proof.
  unfold make, bind, insert1, insert. simpl ingest_probes. unfold ret.
  destruct (existsb _ (rows s)); [reflexivity|]. simpl. rewrite app_nil_r. reflexivity.
Qed.

(** When the first probe's data has neither a 'probe' nor a
    'probe_comment' field, [probe_key] is unbound at its first use and make
    raises NameError (UnboundLocalError) before storing anything. *)
Theorem make_first_probe_unnamed (md5_hexdigest : string -> string) (key : session_key)
  (d : ephys_data) (ds : list ephys_data) (s : db) :
  probe_sel d = NoProbeField ->
  make md5_hexdigest key (d :: ds) s = Raise NameError s.
Proof.
  intros Hp. unfold make, bind. simpl ingest_probes. unfold ingest_probe, bind at 1.
  unfold resolve_probe. rewrite Hp. reflexivity.
Qed.

Definition unnamed_probe_data : ephys_data :=
  {| ephys_file := ephys_file (probe_data "jrclust_v3");
     probe_sel := NoProbeField;
     electrodes := electrodes (probe_data "jrclust_v3");
     sampling_rate := sampling_rate (probe_data "jrclust_v3");
     adapter := adapter (probe_data "jrclust_v3");
     headstage := headstage (probe_data "jrclust_v3");
     clustering_method := "jrclust_v3";
     unit_ids := unit_ids (probe_data "jrclust_v3");
     spike_times := spike_times (probe_data "jrclust_v3");
     spike_sites := spike_sites (probe_data "jrclust_v3");
     spike_depths := spike_depths (probe_data "jrclust_v3");
     unit_electrode := unit_electrode (probe_data "jrclust_v3");
     unit_quality := unit_quality (probe_data "jrclust_v3");
     unit_posx := unit_posx (probe_data "jrclust_v3");
     unit_posy := unit_posy (probe_data "jrclust_v3");
     unit_amp := unit_amp (probe_data "jrclust_v3");
     unit_snr := unit_snr (probe_data "jrclust_v3");
     waveform := waveform (probe_data "jrclust_v3") |}.

Lemma make_first_probe_unnamed_witness :
  probe_sel unnamed_probe_data = NoProbeField /\
  make digest0 sk0 [unnamed_probe_data; probe_data "jrclust_v3"] db0 = Raise NameError db0.
Proof.
  assert (H : probe_sel unnamed_probe_data = NoProbeField) by reflexivity.
  split; [exact H|]. exact (make_first_probe_unnamed digest0 sk0 _ _ db0 H).
Defined.

Module ElectrodeFacts.

Lemma map_opt_none {A B} (f : A -> option B) (l : list A) (x : A) :
  In x l -> f x = None -> map_opt f l = None.
Proof.
  induction l as [|y l IH]; [intros []|].
  intros [<-|Hin] Hx; rewrite ConfigName.map_opt_cons.
  - rewrite Hx. reflexivity.
  - destruct (f y); [|reflexivity]. rewrite (IH Hin Hx). reflexivity.
Qed.

Lemma fetch_member_absent (labdb : lab_db) (pt : string) (eid : Z) :
  ~ In (pt, eid) (lab_type_electrodes labdb) -> ConfigFacts.fetch_member labdb pt eid = None.
Proof.
  intros Hn. unfold ConfigFacts.fetch_member.
  replace (filter _ _) with (@nil (string * Z)); [reflexivity|].
  induction (lab_type_electrodes labdb) as [|[pt' e'] l IH]; [reflexivity|].
  simpl in Hn |- *.
  destruct (String.eqb_spec pt' pt) as [<-|]; [destruct (Z.eqb_spec e' eid) as [<-|]|];
    simpl; [tauto| |]; apply IH; tauto.
Qed.

Lemma find_key_dict_set {V} (e k : Z) (v : V) (d : list (Z * V)) :
  find_key e (dict_set k v d) = if Z.eqb e k then Some v else find_key e d.
Proof.
  induction d as [|[k' v'] d IH]; simpl.
  - reflexivity.
  - destruct (Z.eqb_spec k k') as [<-|Hk]; simpl.
    + destruct (Z.eqb e k); reflexivity.
    + rewrite IH. destruct (Z.eqb_spec e k'), (Z.eqb_spec e k); try reflexivity; congruence.
Qed.

Lemma find_key_fold {V} (e : Z) (ps : list (Z * V)) (acc : list (Z * V)) :
  find_key e (fold_left (fun acc p => dict_set (fst p) (snd p) acc) ps acc) = None <->
  find_key e acc = None /\ ~ In e (map fst ps).
Proof.
  revert acc. induction ps as [|[k v] ps IH]; intros acc; simpl.
  - tauto.
  - rewrite IH, find_key_dict_set. destruct (Z.eqb_spec e k) as [<-|Hk].
    + split; [intros [H _]; discriminate|intros [_ H]; tauto].
    + split; [intros [H1 H2]; split; [exact H1|intros [H|H]; [congruence|tauto]]|].
      intros [H1 H2]. split; [exact H1|tauto].
Qed.

End ElectrodeFacts.

(** _gen_electrode_config with an empty electrode list raises IndexError
    ([el_list[s + 1]] on an empty list) and stores nothing. *)
Theorem gen_electrode_config_empty (md5_hexdigest : string -> string) (probe_key : probe_row)
  (s : db) :
  gen_electrode_config md5_hexdigest probe_key [] s = Raise IndexError s.
Proof. reflexivity. Qed.

(** _gen_electrode_config raises DataJointError (a [fetch1] on no row) and
    stores nothing when an electrode of the list is not an electrode of the
    probe's type in lab.ProbeType.Electrode. *)
Theorem gen_electrode_config_unknown_electrode (md5_hexdigest : string -> string)
  (probe_key : probe_row) (electrode_list : list Z) (eid : Z) (s : db) :
  In eid electrode_list ->
  ~ In (probe_type probe_key, eid) (lab_type_electrodes (lab s)) ->
  gen_electrode_config md5_hexdigest probe_key electrode_list s = Raise DataJointError s.
Proof.
  intros Hin Hn. unfold gen_electrode_config, bind at 1.
  rewrite ConfigFacts.mapM_fetch_electrode.
  rewrite (ElectrodeFacts.map_opt_none _ _ eid Hin (ElectrodeFacts.fetch_member_absent _ _ _ Hn)).
  reflexivity.
Qed.

Lemma gen_electrode_config_unknown_electrode_witness :
  In 5%Z [1; 5]%Z /\
  ~ In (probe_type probe0, 5%Z) (lab_type_electrodes (lab db0)) /\
  gen_electrode_config digest0 probe0 [1; 5]%Z db0 = Raise DataJointError db0.
Proof.
  assert (H1 : In 5%Z [1; 5]%Z) by (simpl; tauto).
  assert (H2 : ~ In (probe_type probe0, 5%Z) (lab_type_electrodes (lab db0))).
  { simpl. intros [H|[H|[]]]; discriminate. }
  split; [exact H1|]. split; [exact H2|].
  exact (gen_electrode_config_unknown_electrode digest0 probe0 _ 5%Z db0 H1 H2).
Defined.


(** The [chn2electrodes] dict that EphysIngestion.make builds from
    (electrode, key) pairs: looking up [ephys_data['unit_electrode'][i]]
    raises KeyError exactly when that electrode is not one of the pairs'
    electrodes. *)
Theorem chn2electrodes_lookup (chn2 : list (Z * (string * Z))) (e : Z) :
  find_key e (fold_left (fun acc p => dict_set (fst p) (snd p) acc) chn2 []) = None <->
  ~ In e (map fst chn2).
Proof.
  rewrite ElectrodeFacts.find_key_fold. simpl. tauto.
Qed.

(** ** Unit assembly *)

Module UnitCountFacts.

Lemma select_unit_length {A} (us : list Z) (arr : list A) (u : Z) :
  List.length us = List.length arr ->
  List.length (select_unit us arr u) = List.length (filter (fun v => Z.eqb v u) us).
Proof.
  unfold select_unit. rewrite length_map. revert arr.
  induction us as [|v us IH]; intros [|a arr] H; simpl in *; try discriminate; [reflexivity|].
  injection H as H. destruct (Z.eqb v u); simpl; [f_equal|]; apply IH; exact H.
Qed.

Lemma list_sum_map_add {A} (f g : A -> nat) (l : list A) :
  list_sum (map (fun x => (f x + g x)%nat) l) = (list_sum (map f l) + list_sum (map g l))%nat.
Proof. induction l as [|x l IH]; simpl; [reflexivity|]. rewrite IH. lia. Qed.

Lemma list_sum_indicator (x : Z) (K : list Z) :
  NoDup K -> In x K -> list_sum (map (fun u => if Z.eqb x u then 1%nat else 0%nat) K) = 1%nat.
Proof.
  induction K as [|k K IH]; [intros _ []|].
  intros Hnd Hin. inversion Hnd as [|? ? Hk HK]; subst. simpl.
  destruct (Z.eqb_spec x k) as [<-|Hxk].
  - assert (H0 : list_sum (map (fun u => if Z.eqb x u then 1%nat else 0%nat) K) = 0%nat).
    { clear IH Hin HK Hnd. induction K as [|k' K IHK]; simpl; [reflexivity|].
      destruct (Z.eqb_spec x k') as [<-|]; [exfalso; apply Hk; left; reflexivity|].
      apply IHK. simpl in Hk. tauto. }
    rewrite H0. reflexivity.
  - destruct Hin as [<-|Hin]; [congruence|]. apply IH; assumption.
Qed.

Lemma sum_counts (us K : list Z) :
  NoDup K -> (forall x, In x us -> In x K) ->
  list_sum (map (fun u => List.length (filter (fun v => Z.eqb v u) us)) K) = List.length us.
Proof.
  intros Hnd. induction us as [|x us IH]; intros Hsub.
  - simpl. clear Hnd Hsub. induction K; simpl; auto.
  - simpl.
    rewrite (map_ext (fun u => List.length (if Z.eqb x u then x :: filter (fun v => Z.eqb v u) us
                                             else filter (fun v => Z.eqb v u) us))
                     (fun u => ((if Z.eqb x u then 1 else 0) +
                                List.length (filter (fun v => Z.eqb v u) us))%nat))
      by (intros u; destruct (Z.eqb x u); reflexivity).
    rewrite list_sum_map_add, list_sum_indicator, IH; [reflexivity|..|exact Hnd|];
      intros; apply Hsub; simpl; auto.
Qed.

End UnitCountFacts.

(** With equally long unit and spike-time arrays, every spike of a unit id
    above 0 lands in exactly one assembled unit: the unit spike arrays
    together hold as many spikes as there are entries [units > 0]
    (whatever the order in which [set(units)] is enumerated). *)
Theorem assemble_units_spike_count (units : list Z) (spikes : list Q) (rate : Q) :
  List.length units = List.length spikes ->
  exists out, assemble_units units spikes rate = Some out /\
    List.length (List.concat (map snd out)) =
      List.length (filter (fun u => (0 <? u)%Z) units).
Proof.
  intros Hlen. unfold assemble_units.
  rewrite AssemblyFacts.mask_select_units, (AssemblyFacts.mask_select_len spikes units Hlen).
  eexists. split; [reflexivity|].
  rewrite !map_map. simpl.
  set (us := filter (fun u => (0 <? u)%Z) units).
  set (arr := map (fun t => t / rate) (map fst (filter snd (combine spikes (noise_mask units))))).
  assert (Hl : List.length us = List.length arr).
  { unfold us, arr. rewrite !length_map. clear us arr. revert spikes Hlen. unfold noise_mask.
    induction units as [|u r IH]; intros [|t sp] Hl; simpl in *; try discriminate; [reflexivity|].
    injection Hl as Hl. destruct (0 <? u)%Z; simpl; [f_equal|]; apply IH; exact Hl. }
  rewrite length_concat, map_map.
  replace (map (fun x0 => fst x0 / rate) (filter snd (combine spikes (noise_mask units))))
    with arr by (unfold arr; rewrite map_map; reflexivity).
  rewrite (map_ext _ _ (fun u => UnitCountFacts.select_unit_length us arr u Hl)).
  apply UnitCountFacts.sum_counts; [apply AssemblyFacts.py_set_order_nodup|].
  intros x Hx. apply AssemblyFacts.py_set_order_in. exact Hx.
Qed.

Lemma assemble_units_spike_count_witness :
  List.length [-1; 4; 2; 4; 0]%Z = List.length [1; 2; 3; 4; 5] /\
  exists out, assemble_units [-1; 4; 2; 4; 0]%Z [1; 2; 3; 4; 5] 10 = Some out /\
    List.length (List.concat (map snd out)) =
      List.length (filter (fun u => (0 <? u)%Z) [-1; 4; 2; 4; 0]%Z).
Proof.
  assert (H : List.length [-1; 4; 2; 4; 0]%Z = List.length [1; 2; 3; 4; 5]) by reflexivity.
  split; [exact H|]. exact (assemble_units_spike_count _ _ 10 H).
Defined.

(** ** UnitStat.make *)

Module StatFacts.
Import UnitStat.

Lemma np_diff_nil (l : list Q) : np_diff l = [] <-> (List.length l <= 1)%nat.
Proof.
  destruct l as [|x [|y r]]; simpl; split; intros H; try reflexivity; try lia; discriminate.
Qed.

Lemma length_concat_zero {A B} (f : A -> list B) (l : list A) :
  List.length (List.concat (map f l)) = 0%nat <-> Forall (fun a => f a = []) l.
Proof.
  induction l as [|a l IH]; simpl; [split; [constructor|reflexivity]|].
  rewrite length_app, Forall_cons_iff, <- IH.
  destruct (f a); simpl; split; intros H; try lia; try tauto; discriminate (proj1 H).
Qed.

Lemma keep_after_gaps (m : Q) (r : list Q) :
  forall p q, q <= p -> nondecreasing (p :: r) = true ->
  Forall (fun g => m < g) (np_diff (q :: keep_after m p r)).
Proof.
  induction r as [|y r IH]; intros p q Hqp Hnd; [constructor|].
  simpl in Hnd. apply andb_prop in Hnd. destruct Hnd as [Hpy Hnd].
  apply Qle_bool_iff in Hpy.
  simpl keep_after. destruct (Qle_bool (y - p) m) eqn:Hle.
  - apply IH; [lra|exact Hnd].
  - assert (Hlt : m < y - p).
    { apply Qnot_le_lt. intros Hc. apply Qle_bool_iff in Hc. congruence. }
    change (np_diff (q :: y :: keep_after m y r)) with ((y - q) :: np_diff (y :: keep_after m y r)).
    constructor; [lra|]. apply IH; [lra|exact Hnd].
Qed.

Lemma keep_after_incl (m p : Q) (r : list Q) : incl (keep_after m p r) r.
Proof.
  revert p. induction r as [|y r IH]; intros p; simpl; [apply incl_refl|].
  destruct (Qle_bool (y - p) m).
  - apply incl_tl. apply IH.
  - apply incl_cons; [left; reflexivity|]. apply incl_tl. apply IH.
Qed.

Lemma remove_duplicates_nonempty (m : Q) (l : list Q) :
  l <> [] -> remove_duplicates m l <> [].
Proof.
  destruct l as [|x r]; [contradiction|]. intros _.
  rewrite DedupFacts.remove_duplicates_cons. discriminate.
Qed.

End StatFacts.

(** On a nondecreasing spike train, the duplicate-spike removal of
    UnitStat.make keeps the first spike, keeps only spikes of the train,
    and leaves consecutive kept spikes more than [m] apart (for every
    threshold [m]; UnitStat uses [min_isi = 0]). *)
Theorem remove_duplicates_spacing (m : Q) (spike_train : list Q) :
  UnitStat.nondecreasing spike_train = true ->
  hd_error (UnitStat.remove_duplicates m spike_train) = hd_error spike_train /\
  incl (UnitStat.remove_duplicates m spike_train) spike_train /\
  Forall (fun g => m < g) (UnitStat.np_diff (UnitStat.remove_duplicates m spike_train)).
Proof.
  intros Hnd. destruct spike_train as [|x r]; [repeat split; [apply incl_refl|constructor]|].
  rewrite DedupFacts.remove_duplicates_cons. split; [reflexivity|]. split.
  - apply incl_cons; [left; reflexivity|]. apply incl_tl, StatFacts.keep_after_incl.
  - apply StatFacts.keep_after_gaps; [lra|exact Hnd].
Qed.

Lemma remove_duplicates_spacing_witness :
  UnitStat.nondecreasing [0; 1 # 1000; 1 # 100; 1 # 100; 3 # 100] = true /\
  hd_error (UnitStat.remove_duplicates (2 # 1000) [0; 1 # 1000; 1 # 100; 1 # 100; 3 # 100]) =
    hd_error [0; 1 # 1000; 1 # 100; 1 # 100; 3 # 100] /\
  incl (UnitStat.remove_duplicates (2 # 1000) [0; 1 # 1000; 1 # 100; 1 # 100; 3 # 100])
    [0; 1 # 1000; 1 # 100; 1 # 100; 3 # 100] /\
  Forall (fun g => 2 # 1000 < g)
    (UnitStat.np_diff (UnitStat.remove_duplicates (2 # 1000) [0; 1 # 1000; 1 # 100; 1 # 100; 3 # 100])).
Proof.
  assert (H : UnitStat.nondecreasing [0; 1 # 1000; 1 # 100; 1 # 100; 3 # 100] = true) by reflexivity.
  split; [exact H|]. exact (remove_duplicates_spacing (2 # 1000) _ H).
Defined.

(** For a unit with at least one TrialSpikes row, UnitStat.make stores
    null for both isi_violation and avg_firing_rate exactly when no trial
    of the unit holds two or more spikes (there is no inter-spike
    interval). *)
Theorem unit_stat_null_iff (trials : list UnitStat.trial) :
  trials <> [] ->
  (UnitStat.unit_stat trials = Some (None, None) <->
   Forall (fun t => (List.length (UnitStat.trial_spikes t) <= 1)%nat) trials).
Proof.
  intros Hne.
  assert (Hz : List.length (List.concat (map (fun t => UnitStat.np_diff (UnitStat.trial_spikes t)) trials)) = 0%nat <->
               Forall (fun t => (List.length (UnitStat.trial_spikes t) <= 1)%nat) trials).
  { rewrite StatFacts.length_concat_zero. split; apply Forall_impl; intros t; apply StatFacts.np_diff_nil. }
  rewrite <- Hz. destruct trials as [|t0 trs]; [contradiction|].
  unfold UnitStat.unit_stat.
  destruct (Nat.ltb_spec 0 (List.length (List.concat (map (fun t => UnitStat.np_diff (UnitStat.trial_spikes t)) (t0 :: trs))))) as [H|H].
  - cbv zeta. destruct (Qeq_bool _ 0); split; intros Hc; try discriminate; lia.
  - split; [intros _; lia|reflexivity].
Qed.

Lemma unit_stat_null_iff_witness :
  [one_spike_trial 1 0 2; one_spike_trial 3 2 4] <> [] /\
  UnitStat.unit_stat [one_spike_trial 1 0 2; one_spike_trial 3 2 4] = Some (None, None).
Proof.
  assert (H : [one_spike_trial 1 0 2; one_spike_trial 3 2 4] <> []) by discriminate.
  split; [exact H|]. apply (proj2 (unit_stat_null_iff _ H)).
  repeat constructor.
Defined.

(** When some trial holds two or more spikes and the trial durations sum
    to a positive time, UnitStat.make stores a positive avg_firing_rate and
    a nonnegative isi_violation (no division by zero occurs). *)
Theorem unit_stat_rates_positive (trials : list UnitStat.trial) :
  Exists (fun t => (2 <= List.length (UnitStat.trial_spikes t))%nat) trials ->
  0 < UnitStat.Qsum (map (fun t => UnitStat.stop_time t - UnitStat.start_time t) trials) ->
  exists fp r, UnitStat.unit_stat trials = Some (Some fp, Some r) /\ 0 < r /\ 0 <= fp.
Proof.
  intros Hex Hd. unfold UnitStat.unit_stat.
  destruct trials as [|t0 trs] eqn:Et; [inversion Hex|]. cbv iota.
  rewrite <- Et in Hex, Hd |- *.
  set (isis := List.concat (map (fun t => UnitStat.np_diff (UnitStat.trial_spikes t)) trials)).
  assert (Hisi : (0 < List.length isis)%nat).
  { destruct (List.length isis) eqn:H0; [|lia]. exfalso.
    apply StatFacts.length_concat_zero in H0. rewrite Forall_forall in H0.
    apply Exists_exists in Hex. destruct Hex as [t [Ht H2]].
    specialize (H0 t Ht). apply StatFacts.np_diff_nil in H0. lia. }
  rewrite (proj2 (Nat.ltb_lt _ _) Hisi).
  set (N := List.length (List.concat (map (fun t => UnitStat.remove_duplicates UnitStat.min_isi (UnitStat.trial_spikes t)) trials))).
  assert (HN : (0 < N)%nat).
  { destruct N eqn:H0; [|lia]. exfalso. unfold N in H0.
    apply StatFacts.length_concat_zero in H0. rewrite Forall_forall in H0.
    apply Exists_exists in Hex. destruct Hex as [t [Ht H2]].
    specialize (H0 t Ht). revert H0. apply StatFacts.remove_duplicates_nonempty.
    intros Hc. rewrite Hc in H2. simpl in H2. lia. }
  set (d := UnitStat.Qsum _).
  destruct (Qeq_bool d 0) eqn:Hq.
  { apply Qeq_bool_iff in Hq. exfalso. unfold d in Hq. lra. }
  cbv zeta.
  set (n := inject_Z (Z.of_nat N)).
  assert (Hn : 0 < n) by (unfold n; change 0 with (inject_Z 0); rewrite <- Zlt_Qlt; lia).
  set (nv := inject_Z (Z.of_nat (UnitStat.count_lt UnitStat.isi_threshold isis))).
  assert (Hnv : 0 <= nv) by (unfold nv; change 0 with (inject_Z 0); rewrite <- Zle_Qle; lia).
  assert (Hdpos : 0 < d) by exact Hd.
  assert (Hr : 0 < n / d) by (apply Qmult_lt_0_compat; [exact Hn|apply Qinv_lt_0_compat; exact Hdpos]).
  exists (nv / (2 * n * (UnitStat.isi_threshold - UnitStat.min_isi)) / (n / d)), (n / d).
  split; [reflexivity|]. split; [exact Hr|].
  assert (Ht : 0 < 2 * n * (UnitStat.isi_threshold - UnitStat.min_isi)).
  { unfold UnitStat.isi_threshold, UnitStat.min_isi.
    apply Qmult_lt_0_compat; [apply Qmult_lt_0_compat; [reflexivity|exact Hn]|reflexivity]. }
  apply Qmult_le_0_compat; [apply Qmult_le_0_compat; [exact Hnv|]|];
    apply Qinv_le_0_compat; apply Qlt_le_weak; assumption.
Qed.

Lemma unit_stat_rates_positive_witness :
  Exists (fun t => (2 <= List.length (UnitStat.trial_spikes t))%nat) stat_example /\
  0 < UnitStat.Qsum (map (fun t => UnitStat.stop_time t - UnitStat.start_time t) stat_example) /\
  exists fp r, UnitStat.unit_stat stat_example = Some (Some fp, Some r) /\ 0 < r /\ 0 <= fp.
Proof.
  assert (H1 : Exists (fun t => (2 <= List.length (UnitStat.trial_spikes t))%nat) stat_example).
  { constructor. simpl. lia. }
  assert (H2 : 0 < UnitStat.Qsum (map (fun t => UnitStat.stop_time t - UnitStat.start_time t) stat_example))
    by (vm_compute; reflexivity).
  split; [exact H1|]. split; [exact H2|]. exact (unit_stat_rates_positive stat_example H1 H2).
Defined.

(** ** UnitPsth *)

Module HistFacts.
Import Psth.

Lemma histogram_length (xs edges : list Q) :
  List.length (histogram xs edges) = pred (List.length edges).
Proof.
  induction edges as [|a t IH]; [reflexivity|].
  destruct t as [|b r]; [reflexivity|].
  change (List.length (histogram xs (a :: b :: r))) with (S (List.length (histogram xs (b :: r)))).
  rewrite IH. reflexivity.
Qed.

Lemma count_add (f g h : Q -> bool) (xs : list Q) :
  (forall x, ((if f x then 1 else 0) + (if g x then 1 else 0) = if h x then 1 else 0)%nat) ->
  (List.length (filter f xs) + List.length (filter g xs))%nat = List.length (filter h xs).
Proof.
  intros H. induction xs as [|x xs IH]; [reflexivity|]. simpl.
  specialize (H x). destruct (f x), (g x), (h x); simpl in *; lia.
Qed.

Lemma Qle_bool_false (a b : Q) : Qle_bool a b = false -> b < a.
Proof.
  intros H. apply Qnot_le_lt. intros Hc. apply Qle_bool_iff in Hc. congruence.
Qed.

Lemma last_cons_default {A} (x : A) (l : list A) (y z : A) :
  last (x :: l) y = last (x :: l) z.
Proof.
  revert x. induction l as [|w l IH]; intros x; [reflexivity|].
  change (last (w :: l) y = last (w :: l) z). apply IH.
Qed.

Lemma sorted_last (b : Q) (r : list Q) : Sorted Qlt (b :: r) -> b <= last r b.
Proof.
  revert b. induction r as [|c r IH]; intros b Hs; [apply Qle_refl|].
  inversion Hs as [|? ? Hs' Hhd]; subst. inversion Hhd; subst.
  specialize (IH c Hs').
  change (last (c :: r) b) with (last (c :: r) b).
  destruct r as [|d r]; [simpl; lra|].
  rewrite (last_cons_default c (d :: r) b c).
  change (last (c :: d :: r) c) with (last (d :: r) c). lra.
Qed.

(** Over increasing edges, the bins together count each value of the
    closed range from the first edge to the last exactly once. *)
Lemma histogram_total (xs : list Q) (es : list Q) :
  forall a, Sorted Qlt (a :: es) -> es <> [] ->
  list_sum (histogram xs (a :: es)) =
    List.length (filter (fun x => Qle_bool a x && Qle_bool x (last es a)) xs).
Proof.
  induction es as [|b r IH]; intros a Hs Hne; [contradiction|].
  inversion Hs as [|? ? Hs' Hhd]; subst. inversion Hhd as [|? ? Hab]; subst.
  destruct r as [|c r'].
  - simpl. rewrite Nat.add_0_r. reflexivity.
  - change (list_sum (histogram xs (a :: b :: c :: r'))) with
      (List.length (filter (fun x => Qle_bool a x && negb (Qle_bool b x)) xs) +
       list_sum (histogram xs (b :: c :: r')))%nat.
    rewrite IH by (assumption || discriminate).
    change (last (b :: c :: r') a) with (last (c :: r') a).
    rewrite (last_cons_default c r' a b).
    pose proof (sorted_last b (c :: r') Hs') as HbL.
    apply count_add. intros x.
    destruct (Qle_bool a x) eqn:H1, (Qle_bool b x) eqn:H2, (Qle_bool x (last (c :: r') b)) eqn:H3;
      simpl; try reflexivity;
      repeat match goal with
             | H : Qle_bool _ _ = true |- _ => apply Qle_bool_iff in H
             | H : Qle_bool _ _ = false |- _ => apply Qle_bool_false in H
             end; exfalso; lra.
Qed.

Fixpoint increasing (l : list Q) : bool :=
  match l with
  | x :: ((y :: _) as t) => negb (Qle_bool y x) && increasing t
  | _ => true
  end.

Lemma increasing_sorted (l : list Q) : increasing l = true -> Sorted Qlt l.
Proof.
  induction l as [|x t IH]; intros H; [constructor|].
  destruct t as [|y r]; [repeat constructor|].
  simpl in H. apply andb_prop in H. destruct H as [H1 H2].
  constructor; [apply IH; exact H2|]. constructor.
  apply Qle_bool_false. destruct (Qle_bool y x); [discriminate|reflexivity].
Qed.

Lemma psth_edges :
  np_arange xmin xmax binsize = (-75 # 25) :: tl (np_arange xmin xmax binsize) /\
  increasing (np_arange xmin xmax binsize) = true /\
  List.length (np_arange xmin xmax binsize) = 150%nat /\
  last (tl (np_arange xmin xmax binsize)) (-75 # 25) = 74 # 25.
Proof. vm_compute. repeat split; reflexivity. Qed.

Lemma Qsum_scaled (l : list nat) (n b acc : Q) :
  fold_left Qplus (map (fun c => inject_Z (Z.of_nat c) / n / b) l) acc ==
  acc + inject_Z (Z.of_nat (list_sum l)) / n / b.
Proof.
  revert acc. induction l as [|c l IH]; intros acc; simpl.
  - unfold Qdiv. simpl. ring.
  - rewrite IH. rewrite Nat2Z.inj_add, inject_Z_plus. unfold Qdiv. ring.
Qed.

End HistFacts.

(** [np.histogram] as compute_psth uses it: over increasing edges
    [a :: es], the bins together count every value from [a] to the last
    edge, both included, exactly once, and no other value. *)
Theorem histogram_counts_range (xs : list Q) (a : Q) (es : list Q) :
  Sorted Qlt (a :: es) -> es <> [] ->
  list_sum (Psth.histogram xs (a :: es)) =
    List.length (filter (fun x => Qle_bool a x && Qle_bool x (last es a)) xs).
Proof. intros Hs Hne. apply HistFacts.histogram_total; assumption. Qed.

Lemma histogram_counts_range_witness :
  Sorted Qlt [0; 1; 2] /\ [1; 2] <> [] /\
  list_sum (Psth.histogram [-1; 0; 1 # 2; 1; 2; 3] [0; 1; 2]) =
    List.length (filter (fun x => Qle_bool 0 x && Qle_bool x (last [1; 2] 0)) [-1; 0; 1 # 2; 1; 2; 3]).
Proof.
  assert (H1 : Sorted Qlt [0; 1; 2]) by (apply HistFacts.increasing_sorted; reflexivity).
  assert (H2 : [1; 2] <> []) by discriminate.
  split; [exact H1|]. split; [exact H2|].
  exact (histogram_counts_range [-1; 0; 1 # 2; 1; 2; 3] 0 [1; 2] H1 H2).
Defined.

(** UnitPsth.compute_psth returns two rows of equal length, 149 rates and
    149 right bin edges, and the rates sum to the number of spikes lying in
    [-3 s, 2.96 s] divided by the number of trials and by the bin size 0.04
    s: every spike of that range is counted once, no other spike is. *)
Theorem compute_psth_total (session_unit_spikes : list (list Q)) :
  session_unit_spikes <> [] ->
  List.length (fst (Psth.compute_psth session_unit_spikes)) = 149%nat /\
  List.length (snd (Psth.compute_psth session_unit_spikes)) = 149%nat /\
  UnitStat.Qsum (fst (Psth.compute_psth session_unit_spikes)) ==
    inject_Z (Z.of_nat (List.length (filter (fun x => Qle_bool (-3) x && Qle_bool x (74 # 25))
                                      (List.concat session_unit_spikes))))
    / inject_Z (Z.of_nat (List.length session_unit_spikes)) / (1 # 25).
Proof.
  intros _. destruct HistFacts.psth_edges as [He [Hinc [Hlen Hlast]]].
  unfold Psth.compute_psth. cbn [fst snd].
  split; [rewrite length_map, HistFacts.histogram_length, Hlen; reflexivity|].
  split; [rewrite length_tl, Hlen; reflexivity|].
  unfold UnitStat.Qsum. rewrite HistFacts.Qsum_scaled.
  rewrite He, HistFacts.histogram_total.
  - rewrite Hlast. unfold Psth.binsize.
    rewrite (filter_ext _ (fun x => Qle_bool (-3) x && Qle_bool x (74 # 25))); [ring|].
    intros x. f_equal. destruct (Qle_bool (-75 # 25) x) eqn:E1, (Qle_bool (-3) x) eqn:E2;
      try reflexivity;
      repeat match goal with
             | H : Qle_bool _ _ = true |- _ => apply Qle_bool_iff in H
             | H : Qle_bool _ _ = false |- _ => apply HistFacts.Qle_bool_false in H
             end; exfalso; lra.
  - rewrite <- He. apply HistFacts.increasing_sorted. exact Hinc.
  - intros Hc. rewrite Hc in He. rewrite He in Hlen. discriminate.
Qed.

Lemma compute_psth_total_witness :
  [[-4; 0; 74 # 25; 149 # 50]; [1 # 2]] <> [] /\
  List.length (fst (Psth.compute_psth [[-4; 0; 74 # 25; 149 # 50]; [1 # 2]])) = 149%nat /\
  List.length (snd (Psth.compute_psth [[-4; 0; 74 # 25; 149 # 50]; [1 # 2]])) = 149%nat /\
  UnitStat.Qsum (fst (Psth.compute_psth [[-4; 0; 74 # 25; 149 # 50]; [1 # 2]])) ==
    inject_Z (Z.of_nat (List.length (filter (fun x => Qle_bool (-3) x && Qle_bool x (74 # 25))
                                      (List.concat [[-4; 0; 74 # 25; 149 # 50]; [1 # 2]]))))
    / inject_Z (Z.of_nat (List.length [[-4; 0; 74 # 25; 149 # 50]; [1 # 2]])) / (1 # 25).
Proof.
  assert (H : [[-4; 0; 74 # 25; 149 # 50]; [1 # 2]] <> []) by discriminate.
  split; [exact H|]. exact (compute_psth_total _ H).
Defined.

(** ** Curation notes *)

(** _decode_notes gives one label per note, and every label is a
    unit_quality of ephys.UnitQualityType ('good', 'ok', 'multi' or
    'all'); a note is labelled 'good' exactly when it starts with
    'single'. *)
Theorem decode_notes_labels (notes : list string) :
  List.length (decode_notes notes) = List.length notes /\
  Forall (fun l => In l unit_quality_types) (decode_notes notes) /\
  (forall n, decode_note n = "good" <-> String.prefix "single" n = true).
Proof.
  unfold decode_notes. split; [apply length_map|]. split.
  - apply Forall_map, Forall_forall. intros n _. unfold decode_note, note_map. simpl.
    destruct (String.prefix "single" n), (String.prefix "ok" n), (String.prefix "multi" n),
      (String.prefix nul2 n); simpl; tauto.
  - intros n. unfold decode_note, note_map. simpl.
    destruct (String.prefix "single" n), (String.prefix "ok" n), (String.prefix "multi" n),
      (String.prefix nul2 n); simpl; split; intros H; try reflexivity; discriminate.
Qed.

(** ** UnitPsth.get_plotting_data *)

Module RasterFacts.

Lemma combine_fst_snd {A B} (l : list (A * B)) : combine (map fst l) (map snd l) = l.
Proof. induction l as [|[a b] l IH]; simpl; [reflexivity|]. rewrite IH. reflexivity. Qed.

Lemma combine_repeat_app {A B} (s : list A) (t : B) (xs : list A) (ts : list B) :
  combine (s ++ xs) (repeat t (List.length s) ++ ts) = (map (fun x => (x, t)) s ++ combine xs ts)%list.
Proof. induction s as [|x s IH]; simpl; [reflexivity|]. rewrite IH. reflexivity. Qed.

Lemma raster_pairs {B} (rows : list (list Q * B)) :
  combine (List.concat (map fst rows))
          (List.concat (map (fun st => repeat (snd st) (List.length (fst st))) rows)) =
  List.concat (map (fun st => map (fun x => (x, snd st)) (fst st)) rows).
Proof.
  induction rows as [|[s t] rows IH]; simpl; [reflexivity|].
  rewrite combine_repeat_app, IH. reflexivity.
Qed.

Lemma raster_lengths {B} (rows : list (list Q * B)) :
  List.length (List.concat (map fst rows)) =
  List.length (List.concat (map (fun st => repeat (snd st) (List.length (fst st))) rows)).
Proof.
  induction rows as [|[s t] rows IH]; simpl; [reflexivity|].
  rewrite !length_app, repeat_length, IH. reflexivity.
Qed.

End RasterFacts.

(** UnitPsth.get_plotting_data raises 'No spikes found' when the stored psth
    is null, and ValueError when no TrialSpikes row is fetched; otherwise
    its raster pairs every spike with the trial it was recorded in, trial
    after trial in the fetched order, its two arrays having equal length. *)
Theorem get_plotting_data_raster (psth : list Q * list Q) (trial_spikes : list (list Q * Z)) :
  get_plotting_data None trial_spikes = inl NoSpikesFound /\
  get_plotting_data (Some psth) [] = inl ValueError /\
  (trial_spikes <> [] ->
   exists xs ts,
     get_plotting_data (Some psth) trial_spikes =
       inr {| pd_trials := map snd trial_spikes; pd_spikes := map fst trial_spikes;
              pd_psth := psth; pd_raster := (xs, ts) |} /\
     List.length xs = List.length ts /\
     combine xs ts = List.concat (map (fun st => map (fun x => (x, snd st)) (fst st)) trial_spikes)).
Proof.
  split; [reflexivity|]. split; [reflexivity|].
  intros Hne. unfold get_plotting_data. cbv zeta.
  rewrite RasterFacts.combine_fst_snd.
  destruct trial_spikes as [|st rows]; [contradiction|].
  unfold np_concatenate. simpl map. cbv iota.
  eexists; eexists. split; [reflexivity|]. split.
  - exact (RasterFacts.raster_lengths (st :: rows)).
  - exact (RasterFacts.raster_pairs (st :: rows)).
Qed.

Lemma get_plotting_data_raster_witness :
  exists xs ts,
    get_plotting_data (Some ([0], [1])) [([1#10; 2#10], 7%Z); ([3#10], 9%Z)] =
      inr {| pd_trials := [7%Z; 9%Z]; pd_spikes := [[1#10; 2#10]; [3#10]];
             pd_psth := ([0], [1]); pd_raster := (xs, ts) |} /\
    combine xs ts = [(1#10, 7%Z); (2#10, 7%Z); (3#10, 9%Z)].
Proof.
  destruct (proj2 (proj2 (get_plotting_data_raster ([0], [1]) [([1#10; 2#10], 7%Z); ([3#10], 9%Z)])))
    as (xs & ts & H1 & _ & H3); [discriminate|].
  exists xs, ts. split; [exact H1|]. rewrite H3. reflexivity.
Defined.

(** ** Keyword split of the trial-condition functions *)

Module KwargsFacts.

Lemma sdict_set_fresh {V} (k : string) (v : V) (d : list (string * V)) :
  ~ In k (map fst d) -> sdict_set k v d = (d ++ [(k, v)])%list.
Proof.
  induction d as [|[k' v'] d IH]; simpl; [reflexivity|].
  intros Hn. destruct (String.eqb_spec k k') as [->|]; [tauto|].
  rewrite IH by tauto. reflexivity.
Qed.

Lemma substring_all (s : string) : substring 0 (String.length s) s = s.
Proof. induction s as [|c s IH]; simpl; [reflexivity|]. rewrite IH. reflexivity. Qed.

Lemma drop_first_underscore (k : string) :
  String.prefix "_" k = true -> k = String "_"%char (drop_first k).
Proof.
  destruct k as [|c k]; [discriminate|]. unfold String.prefix.
  destruct (Ascii.ascii_dec "_"%char c) as [<-|]; [|discriminate].
  intros _. unfold drop_first. simpl. rewrite Nat.sub_0_r, substring_all. reflexivity.
Qed.

Lemma drop_first_inj (a b : string) :
  String.prefix "_" a = true -> String.prefix "_" b = true -> drop_first a = drop_first b -> a = b.
Proof.
  intros Ha Hb Hab. rewrite (drop_first_underscore a Ha), (drop_first_underscore b Hb), Hab.
  reflexivity.
Qed.

Lemma split_kwargs_from {V} (rest r u : list (string * V)) :
  NoDup (map fst rest) ->
  (forall kv, In kv rest -> String.prefix "_" (fst kv) = false -> ~ In (fst kv) (map fst r)) ->
  (forall kv, In kv rest -> String.prefix "_" (fst kv) = true -> ~ In (drop_first (fst kv)) (map fst u)) ->
  fold_left (fun acc kv =>
               let '(restr, restr_) := acc in
               let '(k, v) := kv in
               if String.prefix "_" k then (restr, sdict_set (drop_first k) v restr_)
               else (sdict_set k v restr, restr_)) rest (r, u) =
  ((r ++ filter (fun kv => negb (String.prefix "_" (fst kv))) rest)%list,
   (u ++ map (fun kv => (drop_first (fst kv), snd kv))
              (filter (fun kv => String.prefix "_" (fst kv)) rest))%list).
Proof.
  revert r u. induction rest as [|[k v] rest IH]; intros r u Hnd Hr Hu.
  - simpl. rewrite !app_nil_r. reflexivity.
  - simpl in Hnd. inversion Hnd as [|? ? Hk Hnd']; subst. simpl.
    destruct (String.prefix "_" k) eqn:Hp; simpl.
    + rewrite sdict_set_fresh by (apply (Hu (k, v)); [left; reflexivity|exact Hp]).
      rewrite IH; [rewrite <- app_assoc; reflexivity|exact Hnd'|..].
      * intros kv Hin Hq. apply Hr; [right; exact Hin|exact Hq].
      * intros kv Hin Hq. rewrite map_app, in_app_iff. intros [Hc|[Hc|[]]].
        -- exact (Hu kv (or_intror Hin) Hq Hc).
        -- simpl in Hc. apply drop_first_inj in Hc; [|exact Hp|exact Hq].
           apply Hk. rewrite Hc. apply in_map. exact Hin.
    + rewrite sdict_set_fresh by (apply (Hr (k, v)); [left; reflexivity|exact Hp]).
      rewrite IH; [rewrite <- app_assoc; reflexivity|exact Hnd'|..].
      * intros kv Hin Hq. rewrite map_app, in_app_iff. intros [Hc|[Hc|[]]].
        -- exact (Hr kv (or_intror Hin) Hq Hc).
        -- simpl in Hc. apply Hk. rewrite Hc. apply in_map. exact Hin.
      * intros kv Hin Hq. apply Hu; [right; exact Hin|exact Hq].
Qed.

End KwargsFacts.

(** In TrialCondition._get_trials_exclude_stim and _get_trials_include_stim,
    no keyword argument is lost or merged: the inclusion dict [restr] holds
    exactly the arguments whose name does not start with '_', and the
    exclusion dict [_restr] exactly the others, each under its name without
    the leading '_', both in argument order. *)
Theorem split_kwargs_partition {V} (kwargs : list (string * V)) :
  NoDup (map fst kwargs) ->
  split_kwargs kwargs =
    (filter (fun kv => negb (String.prefix "_" (fst kv))) kwargs,
     map (fun kv => (drop_first (fst kv), snd kv))
         (filter (fun kv => String.prefix "_" (fst kv)) kwargs)).
Proof.
  intros Hnd. unfold split_kwargs.
  rewrite KwargsFacts.split_kwargs_from; [reflexivity|exact Hnd|..]; intros; simpl; tauto.
Qed.

Lemma split_kwargs_partition_witness :
  NoDup (map fst [("trial_instruction", 1%Z); ("_photostim_brain_region", 2%Z); ("_outcome", 3%Z)]) /\
  split_kwargs [("trial_instruction", 1%Z); ("_photostim_brain_region", 2%Z); ("_outcome", 3%Z)] =
    ([("trial_instruction", 1%Z)], [("photostim_brain_region", 2%Z); ("outcome", 3%Z)]).
Proof.
  assert (H : NoDup (map fst [("trial_instruction", 1%Z); ("_photostim_brain_region", 2%Z); ("_outcome", 3%Z)])).
  { simpl. repeat constructor; simpl; intuition discriminate. }
  split; [exact H|]. rewrite (split_kwargs_partition _ H). reflexivity.
Defined.

(** ** Headstage name *)

(** The loader's headstage name is the recording system, '_', and the
    adapter name after its first 'OM'; when the adapter name holds no 'OM'
    ([find] gives -1), it is the adapter name without its first character. *)
Theorem headstage_name_cases (recording_system adapter : string) :
  (String.index 0 "OM" adapter = None ->
   headstage_name recording_system adapter =
     recording_system ++ "_" ++ substring 1 (String.length adapter - 1) adapter) /\
  (forall i, String.index 0 "OM" adapter = Some i ->
   substring i 2 adapter = "OM" /\
   headstage_name recording_system adapter =
     recording_system ++ "_" ++ substring (i + 2) (String.length adapter - (i + 2)) adapter).
Proof.
  unfold headstage_name, py_find, py_slice_from. split.
  - intros H. rewrite H. reflexivity.
  - intros i H. split; [exact (index_correct1 0 i "OM" adapter H)|].
    rewrite H. rewrite (proj2 (Z.ltb_ge _ _)) by lia.
    replace (Z.to_nat (Z.of_nat i + 2)) with (i + 2)%nat by lia. reflexivity.
Qed.

Lemma headstage_name_cases_witness :
  String.index 0 "OM" "H32_OM32" = Some 4%nat /\ headstage_name "Intan" "H32_OM32" = "Intan_32".
Proof.
  split; [reflexivity|].
  destruct (proj2 (headstage_name_cases "Intan" "H32_OM32") 4%nat eq_refl) as [_ H].
  rewrite H. reflexivity.
Defined.
